(** * app_motor.py: data preparation, demand forecast and weekly insight

    A shallow embedding of the dashboard script [app_motor.py].  The script
    loads a sales table, prepares it (section "PERSIAPAN DATA", lines 73-93)
    and renders one of five pages.  A run of the script is embedded for the
    pages "Prediksi Demand" (lines 159-192) and "Insight Otomatis" (lines
    220-239); what the other pages compute, and the loading of the table
    with its two cached functions (lines 21-68), are embedded on their own.

    The libraries the script calls are not part of the program.  Each is
    taken through the part of its documented behaviour the script relies on:
    - [random]: a generator state with [_randbelow], from which
      [random.choice] and [random.randint] are defined as in CPython;
    - [pd.to_datetime(..., errors="coerce")]: a column-wise parser that
      yields a timestamp or NaT per cell;
    - [DataFrame.sort_values]: reordering by a positional indexer that sorts
      the key column ([argsort]); NumPy's default [quicksort] kind is also
      modelled concretely in [Module Numpy];
    - [statsmodels] ARIMA: a fit-and-forecast function on an indexed series
      that may raise;
    - [Series.sum] and the sums of [groupby]: exact within the range in which
      both [int64] and [float64] are, unspecified beyond it;
    - [st.cache_data]: a cache that outlives the run.

    Timestamps are integers of nanoseconds since 1970-01-01, as in
    [datetime64[ns]]; NaT and NaN cells are [None]. *)

From stdpp Require Import base decidable option numbers list sorting strings gmap pretty.
From Stdlib Require Import ZArith Lia Ascii.

Local Open Scope Z_scope.

(** ** Calendar *)

(** A [pd.Timestamp]: nanoseconds since 1970-01-01. *)
Abbreviation Timestamp := Z (only parsing).

(** Days between 1970-01-01 and the civil date y-m-d (proleptic Gregorian). *)
Definition days_from_civil (y m d : Z) : Z :=
  let y' := if m <=? 2 then y - 1 else y in
  let era := y' / 400 in
  let yoe := y' - era * 400 in
  let mp := (m + 9) mod 12 in
  let doy := (153 * mp + 2) / 5 + d - 1 in
  let doe := yoe * 365 + yoe / 4 - yoe / 100 + doy in
  era * 146097 + doe - 719468.

Definition ns_per_day : Z := 86400 * 1000000000.

(** [timedelta(days=d)] as a nanosecond offset. *)
Definition timedelta_days (d : Z) : Z := d * ns_per_day.

(** [pd.Timestamp("y-m-d")], midnight. *)
Definition timestamp_ymd (y m d : Z) : Timestamp :=
  timedelta_days (days_from_civil y m d).

(** [pd.date_range(start, periods=n, freq="D")]. *)
Definition date_range (start : Timestamp) (periods : nat) : list Timestamp :=
  (λ i : nat, start + timedelta_days (Z.of_nat i)) <$> seq 0 periods.

(** ** Cells and frames *)

(** A scalar as [read_csv]/[read_excel] deliver it in an untyped column. *)
Inductive Cell :=
  | NaN
  | Int (z : Z)
  | Str (s : string)
  | Time (t : Timestamp).

Global Instance Cell_eq_dec : EqDecision Cell.
Proof. solve_decision. Defined.

(** The table as loaded.  Its index is the default [RangeIndex] 0..raw_len-1.
    Each recognised column is either absent ([None]) or a list of cells; a
    cell of a typed column is [None] when it is null.  Columns with other
    names are carried along untouched by the script and are left out. *)
Record RawFrame := {
  raw_len : nat;
  raw_Tanggal : option (list Cell);
  raw_Wilayah : option (list (option string));
  raw_Promosi : option (list (option Z));
  raw_Penjualan : option (list (option Z));
  raw_Nama_Produk : option (list (option string));
}.

Definition col_okb {A} (n : nat) (c : option (list A)) : bool :=
  match c with
  | None => true
  | Some l => Nat.eqb (length l) n
  end.

(** Every present column has one cell per row. *)
Definition raw_okb (raw : RawFrame) : bool :=
  col_okb (raw_len raw) (raw_Tanggal raw)
  && col_okb (raw_len raw) (raw_Wilayah raw)
  && col_okb (raw_len raw) (raw_Promosi raw)
  && col_okb (raw_len raw) (raw_Penjualan raw)
  && col_okb (raw_len raw) (raw_Nama_Produk raw).

(** The table after preparation: [index] holds the labels of the surviving
    rows (their positions in the loaded table), in row order. *)
Record Frame := {
  index : list nat;
  Tanggal : list (option Timestamp);
  Wilayah : list (option string);
  Promosi : list (option Z);
  Penjualan : list (option Z);
  Nama_Produk : list (option string);
}.

(** Positional selection, [column.take(positions)]. *)
Definition iloc {A} (positions : list nat) (c : list A) : list A :=
  omap (λ i, c !! i) positions.
Global Arguments iloc : simpl never.

(** Row selection by a boolean mask, [df[mask]]: the selected positions,
    counted from [k]. *)
Fixpoint mask_from (k : nat) (mask : list bool) : list nat :=
  match mask with
  | [] => []
  | b :: mask' => if b then k :: mask_from (S k) mask' else mask_from (S k) mask'
  end.

Definition mask_positions (mask : list bool) : list nat := mask_from 0 mask.

Definition frame_iloc (positions : list nat) (df : Frame) : Frame :=
  {| index := iloc positions (index df);
     Tanggal := iloc positions (Tanggal df);
     Wilayah := iloc positions (Wilayah df);
     Promosi := iloc positions (Promosi df);
     Penjualan := iloc positions (Penjualan df);
     Nama_Produk := iloc positions (Nama_Produk df) |}.

(** [len(df)]. *)
Definition len (df : Frame) : nat := length (index df).

(** ** The libraries *)

(** [random]: the generator state and [Random._randbelow]. *)
Class RandomGen (G : Type) := {
  randbelow : nat → G → nat * G;
  randbelow_lt : ∀ n g, (0 < n)%nat → ((randbelow n g).1 < n)%nat;
}.

(** [pd.to_datetime(column, errors="coerce")]: one result per cell, NaT for
    what does not parse; a column that already holds timestamps is returned
    as it is. *)
Class DateParser := {
  to_datetime : list Cell → list (option Timestamp);
  to_datetime_length : ∀ c, length (to_datetime c) = length c;
  to_datetime_Time : ∀ ts, to_datetime (Time <$> ts) = Some <$> ts;
}.

(** The positional indexer behind [sort_values]: a rearrangement of the
    positions 0..n-1 under which the keys ascend. *)
Class ArgSort := {
  argsort : list Z → list nat;
  argsort_perm : ∀ ks, argsort ks ≡ₚ seq 0 (length ks);
  argsort_sorted : ∀ ks, StronglySorted Z.le (iloc (argsort ks) ks);
}.

(** Python exceptions that reach a [try] or the top of the script. *)
Inductive Result (A : Type) :=
  | Ok (a : A)
  | Raise (e : string).
Arguments Ok {A} a.
Arguments Raise {A} e.

(** A column of units as a pandas [Series]: each value with its index
    label. *)
Definition Series : Type := list (nat * option Z).

(** [ARIMA(endog, order).fit().forecast(steps)] on a series, index included:
    the point forecasts, or the exception raised by the constructor, the fit
    or the forecast.  A forecast has [steps] values. *)
Class Arima := {
  prediction : Type;
  ARIMA_fit_forecast : Series → nat * nat * nat → nat → Result (list prediction);
  forecast_steps : ∀ endog order steps fc,
    ARIMA_fit_forecast endog order steps = Ok fc → length fc = steps;
}.

(** The sum of integers that [sum()] stands for: nulls skipped, 0 when
    nothing is left; and the sum of the absolute values, which bounds every
    partial sum in whatever order the cells are added. *)
Definition exact_sum (c : list (option Z)) : Z :=
  foldr (λ x acc, default 0 x + acc) 0 c.

Definition abs_total (c : list (option Z)) : Z :=
  foldr (λ x acc, Z.abs (default 0 x) + acc) 0 c.

(** [Series.sum()] and the sum of one group of [groupby(...).sum()].  pandas
    adds a column of integers in [int64], where the sum wraps around, and a
    column with a null in [float64], where it rounds.  Either way the result
    is the sum of the integers as long as the absolute values add up to at
    most 2^53; nothing is said of the result beyond that. *)
Class Sums := {
  Series_sum : list (option Z) → Z;
  group_sum : list (option Z) → Z;
  Series_sum_exact : ∀ c, abs_total c ≤ 2 ^ 53 → Series_sum c = exact_sum c;
  group_sum_exact : ∀ c, abs_total c ≤ 2 ^ 53 → group_sum c = exact_sum c;
}.

(** [float64] as far as the pages use it: the mean of a units series, the
    comparison [>], and NaN, which is the mean of a series without values
    and compares false with everything. *)
Class Float64 := {
  float : Type;
  Series_mean : list (option Z) → float;
  float_gt : float → float → bool;
  isnan : float → bool;
  mean_of_nothing : ∀ c, omap id c = [] → isnan (Series_mean c) = true;
  gt_nan : ∀ a b, isnan a = true ∨ isnan b = true → float_gt a b = false;
}.

(** ** Random draws *)

Section random.
Context {G : Type} `{RandomGen G}.

(** A computation that consumes generator state. *)
Definition Rand (A : Type) : Type := G → A * G.

Definition ret {A} (a : A) : Rand A := λ g, (a, g).
Definition bind {A B} (c : Rand A) (k : A → Rand B) : Rand B :=
  λ g, let '(a, g') := c g in k a g'.

(** [random.choice(seq)] is [seq[self._randbelow(len(seq))]]; the script
    only draws from non-empty literals, [dflt] stands for the [IndexError]
    of an empty one. *)
Definition random_choice {A} (dflt : A) (l : list A) : Rand A :=
  λ g, let '(i, g') := randbelow (length l) g in (default dflt (l !! i), g').

(** [random.randint(a, b)] is [a + self._randbelow(b - a + 1)]. *)
Definition random_randint (a b : Z) : Rand Z :=
  λ g, let '(i, g') := randbelow (Z.to_nat (b - a + 1)) g in (a + Z.of_nat i, g').

(** [[c for _ in range(n)]]: n draws, left to right. *)
Fixpoint draws {A} (n : nat) (c : Rand A) : Rand (list A) :=
  match n with
  | O => ret []
  | S n' => bind c (λ x, bind (draws n' c) (λ xs, ret (x :: xs)))
  end.
End random.

Arguments Rand : clear implicits.

Notation "'let*' x := c 'in' k" := (bind c (λ x, k))
  (at level 10, x name, c at level 100, k at level 200).

(** ** Data preparation (lines 73-93) *)

Definition wilayah_list : list string :=
  ["Jakarta"; "Bandung"; "Surabaya"; "Medan"; "Yogyakarta"]%string.

(** [f"Motor-{i%5+1}"] *)
Definition motor_label (i : nat) : string :=
  ("Motor-" +:+ pretty (i mod 5 + 1)%nat)%string.

(** The positions and timestamps of the cells that are not NaT, in order:
    what [dropna(subset=["Tanggal"])] keeps. *)
Fixpoint notna_from (k : nat) (c : list (option Timestamp)) : list (nat * Timestamp) :=
  match c with
  | [] => []
  | Some t :: c' => (k, t) :: notna_from (S k) c'
  | None :: c' => notna_from (S k) c'
  end.

Definition notna (c : list (option Timestamp)) : list (nat * Timestamp) := notna_from 0 c.

Section persiapan.
Context {G : Type} `{RandomGen G} `{DateParser} `{ArgSort}.

(** Lines 73-79: the labels of the rows that survive [dropna], in the
    order [sort_values("Tanggal")] puts them, and the parsed date column. *)
Definition tanggal_parsed (data : RawFrame) : list (option Timestamp) :=
  to_datetime
    (match raw_Tanggal data with
     | Some c => c
     | None => Time <$> date_range (timestamp_ymd 2023 1 1) (raw_len data)
     end).

Definition sorted_labels (data : RawFrame) : list nat :=
  let kept := notna (tanggal_parsed data) in
  iloc (argsort kept.*2) kept.*1.

(** The timestamps of the rows kept by [dropna], in source order. *)
Definition kept_keys (raw : RawFrame) : list Timestamp :=
  (notna (tanggal_parsed raw)).*2.

(** A column that is present is carried through [dropna] and
    [sort_values]; one that is absent is generated for the rows at hand. *)
Definition backfill {A} (c : option (list A)) (labels : list nat)
    (gen : Rand G (list A)) : Rand G (list A) :=
  match c with
  | Some l => ret (iloc labels l)
  | None => gen
  end.

Definition persiapan_data (data : RawFrame) : Rand G Frame :=
  let labels := sorted_labels data in
  let n := length labels in
  let* wilayah := backfill (raw_Wilayah data) labels
      (draws n (bind (random_choice EmptyString wilayah_list) (λ w, ret (Some w)))) in
  let* promosi := backfill (raw_Promosi data) labels
      (draws n (bind (random_choice 0 [0; 1]) (λ p, ret (Some p)))) in
  let* penjualan := backfill (raw_Penjualan data) labels
      (draws n (bind (random_randint 20 200) (λ u, ret (Some u)))) in
  let* nama_produk := backfill (raw_Nama_Produk data) labels
      (ret ((λ i, Some (motor_label i)) <$> seq 0 n)) in
  ret {| index := labels;
         Tanggal := iloc labels (tanggal_parsed data);
         Wilayah := wilayah;
         Promosi := promosi;
         Penjualan := penjualan;
         Nama_Produk := nama_produk |}.
End persiapan.

(** ** NumPy's argsort, kind "quicksort"

    [sort_values] is called without [kind], so NumPy's introsort on the
    indirection array runs ([aquicksort_] of npysort/quicksort): median of
    three, partition around the pivot, the larger side pushed on a stack,
    insertion sort on segments of at most 17 elements, heap sort when the
    depth limit is reached.  Pointers into [tosort] are positions; loops carry fuel bounded
    by the array length. *)

Module Numpy.
Section npysort.
Variable v : list Z.

Definition key (i : nat) : Z := default 0 (v !! i).
Definition get (a : list nat) (p : Z) : nat := default 0%nat (a !! Z.to_nat p).
Definition set (a : list nat) (p : Z) (x : nat) : list nat := <[Z.to_nat p := x]> a.
Definition INTP_SWAP (a : list nat) (p q : Z) : list nat :=
  set (set a p (get a q)) q (get a p).

Definition SMALL_QUICKSORT : Z := 16.

(** [do { ++pi; } while (v[*pi] < vp);] *)
Fixpoint scan_up (fuel : nat) (a : list nat) (vp pi : Z) : Z :=
  match fuel with
  | O => pi + 1
  | S f => if key (get a (pi + 1)) <? vp then scan_up f a vp (pi + 1) else pi + 1
  end.

(** [do { --pj; } while (vp < v[*pj]);] *)
Fixpoint scan_down (fuel : nat) (a : list nat) (vp pj : Z) : Z :=
  match fuel with
  | O => pj - 1
  | S f => if vp <? key (get a (pj - 1)) then scan_down f a vp (pj - 1) else pj - 1
  end.

(** The [for (;;)] of the partition. *)
Fixpoint exchange (fuel : nat) (a : list nat) (vp pi pj : Z) : list nat * Z :=
  match fuel with
  | O => (a, pi)
  | S f =>
    let pi := scan_up (length a) a vp pi in
    let pj := scan_down (length a) a vp pj in
    if pi >=? pj then (a, pi) else exchange f (INTP_SWAP a pi pj) vp pi pj
  end.

Definition partition (a : list nat) (pl pr : Z) : list nat * Z :=
  let pm := pl + Z.shiftr (pr - pl) 1 in
  let a := if key (get a pm) <? key (get a pl) then INTP_SWAP a pm pl else a in
  let a := if key (get a pr) <? key (get a pm) then INTP_SWAP a pr pm else a in
  let a := if key (get a pm) <? key (get a pl) then INTP_SWAP a pm pl else a in
  let vp := key (get a pm) in
  let a := INTP_SWAP a pm (pr - 1) in
  let '(a, pi) := exchange (length a) a vp pl (pr - 1) in
  (INTP_SWAP a pi (pr - 1), pi).

(** [while (pj > pl && vp < v[*pk]) { *pj-- = *pk--; }  *pj = vi;] *)
Fixpoint shift (fuel : nat) (a : list nat) (vi : nat) (pl pj : Z) : list nat :=
  match fuel with
  | O => set a pj vi
  | S f =>
    if (pj >? pl) && (key vi <? key (get a (pj - 1)))
    then shift f (set a pj (get a (pj - 1))) vi pl (pj - 1)
    else set a pj vi
  end.

(** [for (pi = pl + 1; pi <= pr; ++pi)] *)
Definition insertion (a : list nat) (pl pr : Z) : list nat :=
  foldl (λ a (k : nat), let pi := pl + 1 + Z.of_nat k in
                        shift (length a) a (get a pi) pl pi)
        a (seq 0 (Z.to_nat (pr - pl))).

(** The sift-down shared by both loops of [aheapsort_]; [a = tosort - 1],
    so heap slot k of the segment at [pl] is position [pl - 1 + k]. *)
Fixpoint sift (fuel : nat) (a : list nat) (base n : Z) (tmp : nat) (i j : Z) : list nat :=
  match fuel with
  | O => set a (base + i) tmp
  | S f =>
    if j <=? n then
      let j := if (j <? n) && (key (get a (base + j)) <? key (get a (base + j + 1)))
               then j + 1 else j in
      if key tmp <? key (get a (base + j))
      then sift f (set a (base + i) (get a (base + j))) base n tmp j (j + j)
      else set a (base + i) tmp
    else set a (base + i) tmp
  end.

Definition aheapsort (a : list nat) (pl n : Z) : list nat :=
  let base := pl - 1 in
  let a := foldl (λ a (k : nat), let l := Z.shiftr n 1 - Z.of_nat k in
                                 sift (length a) a base n (get a (base + l)) l (Z.shiftl l 1))
                 a (seq 0 (Z.to_nat (Z.shiftr n 1))) in
  foldl (λ a (k : nat), let m := n - Z.of_nat k in
                        let tmp := get a (base + m) in
                        let a := set a (base + m) (get a (base + 1)) in
                        sift (length a) a base (m - 1) tmp 1 2)
        a (seq 0 (Z.to_nat (n - 1))).

(** [while ((pr - pl) > SMALL_QUICKSORT)] with its pushes. *)
Fixpoint split (fuel : nat) (a : list nat) (pl pr cdepth : Z) (stack : list (Z * Z * Z))
  : list nat * Z * Z * list (Z * Z * Z) :=
  match fuel with
  | O => (a, pl, pr, stack)
  | S f =>
    if pr - pl >? SMALL_QUICKSORT then
      let '(a, pi) := partition a pl pr in
      let cdepth := cdepth - 1 in
      if pi - pl <? pr - pi
      then split f a pl (pi - 1) cdepth ((pi + 1, pr, cdepth) :: stack)
      else split f a (pi + 1) pr cdepth ((pl, pi - 1, cdepth) :: stack)
    else (a, pl, pr, stack)
  end.

(** The outer [while (1)] with [stack_pop]. *)
Fixpoint run (fuel : nat) (a : list nat) (pl pr cdepth : Z) (stack : list (Z * Z * Z))
  : list nat :=
  match fuel with
  | O => a
  | S f =>
    let '(a, stack) :=
      if cdepth <? 0 then (aheapsort a pl (pr - pl + 1), stack)
      else let '(a, pl, pr, stack) := split (length a) a pl pr cdepth stack in
           (insertion a pl pr, stack) in
    match stack with
    | [] => a
    | (pl, pr, cdepth) :: stack => run f a pl pr cdepth stack
    end
  end.

Definition aquicksort (tosort : list nat) : list nat :=
  let num := Z.of_nat (length tosort) in
  run (S (length tosort)) tosort 0 (num - 1) (Z.log2 num * 2) [].
End npysort.

(** [np.argsort(v, kind="quicksort")] *)
Definition argsort (v : list Z) : list nat := aquicksort v (seq 0 (length v)).
End Numpy.

(** ** Instances of the libraries

    Concrete libraries, so that every statement below can be evaluated. *)

(** *** Sorting *)

Definition key_le (x y : Z * nat) : Prop := x.1 ≤ y.1.

Global Instance key_le_dec : RelDecision key_le.
Proof. intros x y. unfold key_le. apply _. Defined.

(** [kind="stable"]: merge sort of the (key, position) pairs. *)
Definition stable_argsort (ks : list Z) : list nat :=
  (merge_sort key_le (zip ks (seq 0 (length ks)))).*2.

Definition argsort_okb (ks : list Z) (p : list nat) : bool :=
  bool_decide (p ≡ₚ seq 0 (length ks))
  && bool_decide (StronglySorted Z.le (iloc p ks)).

(** NumPy's indexer, validated: the result of the quicksort model is used
    whenever it is a sorting rearrangement. *)
Definition checked_argsort (ks : list Z) : list nat :=
  let p := Numpy.argsort ks in
  if argsort_okb ks p then p else stable_argsort ks.

(** *** Random numbers: a linear congruential generator *)

Definition lcg_next (g : N) : N := ((g * 1103515245 + 12345) mod 2147483648)%N.

Definition lcg_randbelow (n : nat) (g : N) : nat * N :=
  (N.to_nat ((g / 65536) mod N.of_nat n)%N, lcg_next g).

(** *** Dates: ISO "YYYY-MM-DD" strings *)

Definition digit (c : ascii) : option Z :=
  let n := Z.of_N (N_of_ascii c) in
  if (48 <=? n) && (n <=? 57) then Some (n - 48) else None.

Fixpoint number (acc : Z) (s : string) : option Z :=
  match s with
  | EmptyString => Some acc
  | String c s' => d ← digit c; number (acc * 10 + d) s'
  end.

Definition days_in_month (y m : Z) : Z :=
  if m =? 2 then
    if ((y mod 4 =? 0) && negb (y mod 100 =? 0)) || (y mod 400 =? 0) then 29 else 28
  else if (m =? 4) || (m =? 6) || (m =? 9) || (m =? 11) then 30 else 31.

Definition parse_iso (s : string) : option Timestamp :=
  if (String.length s =? 10)%nat
     && bool_decide (String.get 4 s = Some "-"%char)
     && bool_decide (String.get 7 s = Some "-"%char) then
    y ← number 0 (String.substring 0 4 s);
    m ← number 0 (String.substring 5 2 s);
    d ← number 0 (String.substring 8 2 s);
    if (1 <=? m) && (m <=? 12) && (1 <=? d) && (d <=? days_in_month y m)
    then Some (timestamp_ymd y m d) else None
  else None.

Definition parse_cell (c : Cell) : option Timestamp :=
  match c with
  | NaN => None
  | Int z => Some z
  | Str s => parse_iso s
  | Time t => Some t
  end.

(** *** Sums: [int64]

    The sum of a column of integers as NumPy computes it: two's complement
    on 64 bits, every addition wrapping around. *)

Definition int64 (z : Z) : Z := (z + 2 ^ 63) mod 2 ^ 64 - 2 ^ 63.

Definition int64_sum (c : list (option Z)) : Z :=
  foldl (λ acc x, int64 (acc + default 0 x)) 0 c.

(** *** Means: exact fractions in place of floats

    The mean as the fraction sum / count over the cells that are not null;
    [None] is NaN, for no such cell. *)

Definition Penjualan_mean (c : list (option Z)) : option (Z * nat) :=
  match length (omap id c) with
  | O => None
  | S n => Some (exact_sum c, S n)
  end.

Definition fraction_gt (a b : option (Z * nat)) : bool :=
  match a, b with
  | Some (s1, n1), Some (s2, n2) => s2 * Z.of_nat n1 <? s1 * Z.of_nat n2
  | _, _ => false
  end.

Definition fraction_isnan (a : option (Z * nat)) : bool :=
  match a with Some _ => false | None => true end.

(** *** Forecasts: the last observation carried forward

    A stand-in for a forecasting library, not statsmodels: it ignores the
    index and the order, raises on fewer than three observations or on a
    null, and otherwise repeats the last value. *)

Definition naive_forecast (endog : Series) (order : nat * nat * nat)
    (steps : nat) : Result (list Z) :=
  match mapM snd endog with
  | None => Raise "exog contains inf or nans"
  | Some ys =>
    if (length ys <? 3)%nat then Raise "too few observations"
    else Ok (replicate steps (List.last ys 0))
  end.

(** ** What a run shows *)

(** An f-string: literal text and the values formatted into it. *)
Inductive Piece :=
  | lit (s : string)
  | label (x : option string)
  | num (z : Z).

Definition Text := list Piece.

Section pages.
Context `{Arima} `{Sums}.

(** [forecast_df]: the columns "Tanggal" and "Prediksi_Penjualan". *)
Definition ForecastFrame : Type := list (Timestamp * prediction).

Inductive Figure :=
  | px_line (title : string) (points : ForecastFrame)
  | px_bar (title : string) (bars : list (string * Z)).

Inductive Event :=
  | st_title (s : string)
  | st_markdown (s : string)
  | st_caption (s : string)
  | st_subheader (t : Text)
  | st_success (t : Text)
  | st_info (t : Text)
  | st_warning (s : string)
  | st_error (t : Text)
  | st_selectbox (prompt : string) (options : list (option string))
  | st_plotly_chart (fig : Figure)
  | st_dataframe (df : ForecastFrame)
  | st_download_button (caption : string) (csv : ForecastFrame) (file_name : Text)
      (mime : string).

(** The state of a run: the global [data] and what was rendered so far. *)
Record Session := {
  data : Frame;
  ui : list Event;
}.

(** A page runs to its end, or an exception escapes it and ends the run. *)
Inductive Outcome :=
  | Completed (s : Session)
  | Uncaught (s : Session) (exc : string).

Definition show (evs : list Event) (s : Session) : Session :=
  {| data := data s; ui := ui s ++ evs |}.

(** *** Helpers from pandas *)

(** [Series.unique()]: distinct values in order of first appearance. *)
Definition unique (c : list (option string)) : list (option string) :=
  reverse (remove_dups (reverse c)).

(** [st.selectbox(prompt, options)] with the user's pick. *)
Definition selectbox (options : list (option string)) (pick : nat) : option string :=
  mjoin (options !! pick).

(** [column == produk], elementwise; a null equals nothing. *)
Definition eq_mask (c : list (option string)) (produk : option string) : list bool :=
  (λ x, match x, produk with
        | Some a, Some b => bool_decide (a = b)
        | _, _ => false
        end) <$> c.

(** [Series.max()] of a date column: nulls skipped, NaT when none is left. *)
Definition Tanggal_max (c : list (option Timestamp)) : option Timestamp :=
  foldr (λ d acc, match d, acc with
                  | Some t, Some m => Some (Z.max t m)
                  | Some t, None => Some t
                  | None, _ => acc
                  end) None c.

(** [column >= cutoff], elementwise; NaT on either side compares false. *)
Definition ge_mask (c : list (option Timestamp)) (cutoff : option Timestamp) : list bool :=
  (λ x, match x, cutoff with
        | Some t, Some k => k <=? t
        | _, _ => false
        end) <$> c.

(** [groupby(key)]: the group keys are the distinct keys in ascending
    order, a null key making no group; the group of a key holds the units of
    the rows with that key, in row order. *)
Fixpoint key_insert (k : string) (ks : list string) : list string :=
  match ks with
  | [] => [k]
  | k' :: rest =>
    match String.compare k k' with
    | Eq => ks
    | Lt => k :: ks
    | Gt => k' :: key_insert k rest
    end
  end.

Definition group_keys (keys : list (option string)) : list string :=
  foldl (λ ks k, key_insert k ks) [] (omap id keys).

Definition group_values (k : string) (keys : list (option string))
    (vals : list (option Z)) : list (option Z) :=
  iloc (mask_positions (eq_mask keys (Some k))) vals.

(** A series indexed by the group keys. *)
Definition key_table (f : string → Z) (keys : list (option string)) : list (string * Z) :=
  (λ k, (k, f k)) <$> group_keys keys.

(** [groupby(key)["Penjualan"].sum()]: one entry per group key, the sum of
    the group. *)
Definition groupby_sum (keys : list (option string)) (vals : list (option Z))
  : list (string * Z) :=
  key_table (λ k, group_sum (group_values k keys vals)) keys.

(** [nlargest(n)]: descending by value, equal values in order of
    appearance ([keep="first"]). *)
Fixpoint insert_desc (e : string * Z) (l : list (string * Z)) : list (string * Z) :=
  match l with
  | [] => [e]
  | e' :: l' => if e'.2 <? e.2 then e :: l else e' :: insert_desc e l'
  end.

Definition nlargest (n : nat) (s : list (string * Z)) : list (string * Z) :=
  take n (foldl (λ acc e, insert_desc e acc) [] s).

(** [idxmax()]: the first key with the largest value; [None] on an empty
    series, where pandas raises. *)
Definition idxmax (s : list (string * Z)) : option string :=
  fst <$> head (nlargest 1 s).

(** [pd.DataFrame({"Tanggal": dates, "Prediksi_Penjualan": forecast})] *)
Definition DataFrame_forecast (dates : list Timestamp) (forecast : list prediction)
  : Result ForecastFrame :=
  if decide (length dates = length forecast) then Ok (zip dates forecast)
  else Raise "array length does not match index length".

(** *** Prediksi Demand (lines 159-192) *)

Definition select_produk (d : Frame) (produk : option string) : Frame :=
  frame_iloc (mask_positions (eq_mask (Nama_Produk d) produk)) d.

(** [df["Penjualan"]]: the units with the index labels of their rows. *)
Definition Penjualan_series (df : Frame) : Series := zip (index df) (Penjualan df).

(** Lines 167-174, inside [try]. *)
Definition forecast_df (df_produk : Frame) : Result ForecastFrame :=
  match ARIMA_fit_forecast (Penjualan_series df_produk) (1, 1, 1)%nat 7 with
  | Raise e => Raise e
  | Ok forecast =>
    match Tanggal_max (Tanggal df_produk) with
    | None => Raise "Neither `start` nor `end` can be NaT"
    | Some last => DataFrame_forecast (date_range (last + timedelta_days 1) 7) forecast
    end
  end.

(** Lines 160-163. *)
Definition prediksi_header (options : list (option string)) : list Event :=
  [st_title "📈 Prediksi Demand (7 Hari ke Depan)";
   st_markdown "Prediksi dilakukan menggunakan model **ARIMA** berdasarkan data historis.";
   st_selectbox "Pilih Motor:" options].

(** Lines 176-189, the rest of the [try]. *)
Definition prediksi_result (produk : option string) (fdf : ForecastFrame) : list Event :=
  [st_subheader [lit "📅 Prediksi Penjualan 7 Hari ke Depan untuk "; label produk];
   st_plotly_chart (px_line "🔮 Hasil Prediksi Demand" fdf);
   st_dataframe fdf;
   st_download_button "💾 Download Hasil Prediksi (CSV)" fdf
     [lit "prediksi_"; label produk; lit ".csv"] "text/csv"].

Definition prediksi_demand (pick : nat) (s : Session) : Outcome :=
  let options := unique (Nama_Produk (data s)) in
  let produk := selectbox options pick in
  let df_produk := select_produk (data s) produk in
  let s := show (prediksi_header options) s in
  match forecast_df df_produk with
  | Ok fdf => Completed (show (prediksi_result produk fdf) s)
  | Raise e => Completed (show [st_error [lit "Model gagal dijalankan: "; lit e]] s)
  end.

(** *** Insight Otomatis (lines 220-239) *)

Definition cutoff (d : Frame) : option Timestamp :=
  (λ m, m - timedelta_days 7) <$> Tanggal_max (Tanggal d).

Definition recent_data (d : Frame) : Frame :=
  frame_iloc (mask_positions (ge_mask (Tanggal d) (cutoff d))) d.

Definition top_produk (recent : Frame) : option string :=
  fst <$> head (nlargest 1 (groupby_sum (Nama_Produk recent) (Penjualan recent))).

Definition total_penjualan (recent : Frame) : Z := Series_sum (Penjualan recent).

Definition wilayah_terbaik (recent : Frame) : option string :=
  idxmax (groupby_sum (Wilayah recent) (Penjualan recent)).

Definition top5_recent (recent : Frame) : list (string * Z) :=
  nlargest 5 (groupby_sum (Nama_Produk recent) (Penjualan recent)).

Definition no_recent_sales : Event :=
  st_warning "❌ Tidak ada data penjualan 7 hari terakhir.".

Definition insight_otomatis (s : Session) : Outcome :=
  let s := show [st_title "🤖 Insight Otomatis Mingguan"] s in
  let recent := recent_data (data s) in
  if (0 <? len recent)%nat then
    match top_produk recent with
    | None => Uncaught s "IndexError: index 0 is out of bounds for axis 0 with size 0"
    | Some top =>
      match wilayah_terbaik recent with
      | None => Uncaught s "ValueError: attempt to get argmax of an empty sequence"
      | Some wilayah =>
        Completed (show [st_success [lit "🔥 Dalam 7 hari terakhir, motor **"; label (Some top);
                                     lit "** paling laris!"];
                         st_info [lit "Total penjualan minggu ini: **"; num (total_penjualan recent);
                                  lit " unit**, wilayah terbaik: **"; label (Some wilayah); lit "**."];
                         st_plotly_chart (px_bar "🏆 Top 5 Motor Terlaris Minggu Ini"
                                                 (top5_recent recent))] s)
      end
    end
  else Completed (show [no_recent_sales] s).

(** *** Footer (lines 244-245) *)

(** What a run has rendered, however it ended. *)
Definition outcome_ui (o : Outcome) : list Event :=
  match o with
  | Completed s => ui s
  | Uncaught s _ => ui s
  end.

Definition footer_ui : list Event :=
  [st_markdown "---";
   st_caption "🏍️ Dashboard Penjualan Motor | © 2025 Rizky Septa Renaldy - 411222068"].

(** The footer is reached when no exception ended the run. *)
Definition footer (o : Outcome) : Outcome :=
  match o with
  | Completed s => Completed (show footer_ui s)
  | Uncaught s exc => Uncaught s exc
  end.
End pages.

(** ** A run of the script *)

Inductive Menu :=
  | Prediksi_Demand (pick : nat)
  | Insight_Otomatis.

Section script.
Context {G : Type} `{RandomGen G} `{DateParser} `{ArgSort} `{Arima} `{Sums}.

(** The warning of line 75. *)
Definition persiapan_ui (raw : RawFrame) : list Event :=
  match raw_Tanggal raw with
  | Some _ => []
  | None => [st_warning "Kolom 'Tanggal' tidak ditemukan, membuat kolom tanggal otomatis."]
  end.

(** One run from the loaded table to the footer, for the two pages
    modelled here. *)
Definition script (raw : RawFrame) (menu : Menu) : Rand G Outcome :=
  let* d := persiapan_data raw in
  let s := {| data := d; ui := persiapan_ui raw |} in
  ret (footer (match menu with
               | Prediksi_Demand pick => prediksi_demand pick s
               | Insight_Otomatis => insight_otomatis s
               end)).
End script.

(** ** Vocabulary of the claims *)

(** The five labels the product column cycles through. *)
Definition motor_cycle (n : nat) : list (option string) :=
  (λ i, Some (motor_label i)) <$> seq 0 n.

(** The columns of a frame line up with its index. *)
Definition frame_ok (d : Frame) : Prop :=
  length (Tanggal d) = len d ∧ length (Wilayah d) = len d ∧
  length (Promosi d) = len d ∧ length (Penjualan d) = len d ∧
  length (Nama_Produk d) = len d.

(** ** Tables to evaluate on *)

(** A source with every column: eight rows, one date that does not parse,
    one region cell that is null, two products. *)
Definition raw_sales : RawFrame :=
  {| raw_len := 8;
     raw_Tanggal :=
       Some [Str "2024-03-05"; Str "2024-03-01"; Str "2024-03-03"; Str "tidak ada";
             Str "2024-03-02"; Str "2024-03-04"; Str "2024-03-01"; Str "2024-02-20"];
     raw_Wilayah :=
       Some [Some "Jakarta"; Some "Bandung"; None; Some "Medan";
             Some "Jakarta"; Some "Surabaya"; Some "Bandung"; Some "Medan"]%string;
     raw_Promosi := Some [Some 1; Some 0; Some 1; Some 0; Some 0; Some 1; Some 0; Some 1];
     raw_Penjualan :=
       Some [Some 50; Some 40; Some 45; Some 10; Some 42; Some 48; Some 30; Some 35];
     raw_Nama_Produk :=
       Some [Some "Beat"; Some "Beat"; Some "Beat"; Some "Vario";
             Some "Beat"; Some "Beat"; Some "Vario"; Some "Vario"]%string |}.

(** Three dated rows and nothing else. *)
Definition raw_dates_only : RawFrame :=
  {| raw_len := 3;
     raw_Tanggal := Some [Str "2024-03-05"; Str "2024-03-01"; Str "2024-03-03"];
     raw_Wilayah := None;
     raw_Promosi := None;
     raw_Penjualan := None;
     raw_Nama_Produk := None |}.

(** Thirty rows of units sold, no other column. *)
Definition raw_units_only : RawFrame :=
  {| raw_len := 30;
     raw_Tanggal := None;
     raw_Wilayah := None;
     raw_Promosi := None;
     raw_Penjualan := Some ((λ i : nat, Some (20 + Z.of_nat i)) <$> seq 0 30);
     raw_Nama_Produk := None |}.

(** Eighteen sales of one product on one day. *)
Definition raw_one_day : RawFrame :=
  {| raw_len := 18;
     raw_Tanggal := Some (replicate 18 (Str "2024-03-01"));
     raw_Wilayah := Some (replicate 18 (Some "Jakarta"%string));
     raw_Promosi := Some (replicate 18 (Some 0));
     raw_Penjualan := Some ((λ i : nat, Some (Z.of_nat i)) <$> seq 0 18);
     raw_Nama_Produk := Some (replicate 18 (Some "Beat"%string)) |}.

(** One row whose product cell is empty. *)
Definition raw_no_label : RawFrame :=
  {| raw_len := 1;
     raw_Tanggal := Some [Str "2024-03-05"];
     raw_Wilayah := Some [Some "Jakarta"%string];
     raw_Promosi := Some [Some 1];
     raw_Penjualan := Some [Some 50];
     raw_Nama_Produk := Some [None] |}.

(** C3 as the claim words it: of two rows that share a date, the one that
    came first in the source comes first in the prepared table. *)
Definition keeps_tie_order (d : Frame) : Prop :=
  ∀ i j a b t,
    (i < j)%nat → index d !! i = Some a → index d !! j = Some b →
    Tanggal d !! i = Some t → Tanggal d !! j = Some t → (a < b)%nat.

(** ** Further pages, loading and vocabulary *)

(** The order of group keys: strings compared character by character. *)
Definition string_lt (a b : string) : Prop := String.compare a b = Lt.

(** The units of the rows whose key is [k]; null units count as 0. *)
Definition key_total (k : string) (rows : list (option string * option Z)) : Z :=
  foldr (λ r acc, if decide (r.1 = Some k) then default 0 r.2 + acc else acc) 0 rows.

(** The units of the rows that have no key. *)
Definition unkeyed_total (rows : list (option string * option Z)) : Z :=
  foldr (λ r acc, if decide (r.1 = None) then default 0 r.2 + acc else acc) 0 rows.

(** The stable descending sort behind [nlargest]. *)
Definition ranking (s : list (string * Z)) : list (string * Z) :=
  foldl (λ acc e, insert_desc e acc) [] s.

(** Larger totals first. *)
Definition total_ge (x y : string * Z) : Prop := y.2 ≤ x.2.

(** Line 120: [data.groupby("Nama_Produk")["Penjualan"].sum().nlargest(5)]. *)
Definition dashboard_top_produk `{Sums} (d : Frame) : list (string * Z) :=
  nlargest 5 (groupby_sum (Nama_Produk d) (Penjualan d)).

(** Line 128: [data.groupby("Wilayah")["Penjualan"].sum()]. *)
Definition wilayah_penjualan `{Sums} (d : Frame) : list (string * Z) :=
  groupby_sum (Wilayah d) (Penjualan d).

(** How often a region occurs in a column. *)
Definition occurrences (w : string) (c : list (option string)) : nat :=
  length (filter (λ x, x = Some w) c).

(** [Series.mode()]: the most frequent values in ascending order, nulls
    left out; [mode()[0]] is the first of them. *)
Definition Wilayah_mode (c : list (option string)) : option string :=
  fst <$> head (nlargest 1 (key_table (λ w, Z.of_nat (occurrences w c)) c)).

(** The three metrics and the table of the page; the rendering of the mean
    with two decimals is left to Python. *)
Record AnalisisView `{Float64} := {
  total_metric : Z;
  rata_rata_metric : float;
  wilayah_metric : string;
  tabel : Frame;
}.

(** Lines 141-154 for the product picked; [mode()[0]] on a series without
    any region raises, and nothing catches it. *)
Definition analisis_produk `{Sums} `{Float64} (d : Frame) (produk : option string)
  : Result AnalisisView :=
  let df_produk := select_produk d produk in
  match Wilayah_mode (Wilayah df_produk) with
  | None => Raise "KeyError: 0"
  | Some w =>
    Ok {| total_metric := Series_sum (Penjualan df_produk);
          rata_rata_metric := Series_mean (Penjualan df_produk);
          wilayah_metric := w;
          tabel := df_produk |}
  end.

(** [column == v], elementwise, on the flag column; a null equals nothing. *)
Definition flag_mask (c : list (option Z)) (v : Z) : list bool :=
  (λ x, bool_decide (x = Some v)) <$> c.

(** [st.success("✅ Promosi efektif! ...")] or
    [st.warning("⚠️ Promosi belum berdampak signifikan, perlu evaluasi.")]. *)
Inductive Verdict :=
  | promosi_efektif
  | perlu_evaluasi.

Record RekomendasiView `{Float64} := {
  promo_avg : float;
  non_promo_avg : float;
  verdict : Verdict;
}.

(** Lines 200-210; the grouped bar chart of line 212 is left out. *)
Definition rekomendasi_promosi `{Float64} (d : Frame) : RekomendasiView :=
  let promo := Series_mean (iloc (mask_positions (flag_mask (Promosi d) 1)) (Penjualan d)) in
  let non_promo := Series_mean (iloc (mask_positions (flag_mask (Promosi d) 0)) (Penjualan d)) in
  {| promo_avg := promo;
     non_promo_avg := non_promo;
     verdict := if float_gt promo non_promo then promosi_efektif else perlu_evaluasi |}.

(** [s.endswith(suffix)] *)
Definition endswith (s suffix : string) : bool :=
  let n := String.length s in
  let m := String.length suffix in
  (m <=? n)%nat && String.eqb (String.substring (n - m) m s) suffix.

Definition DATA_URL : string :=
  "https://raw.githubusercontent.com/zaedulislam/motorcycle-sales-dataset/main/motor_sales_sample.csv".
Definition BASENAME : string := "motor_clean_fixed".
Definition CSV_PATH : string := BASENAME +:+ ".csv".
Definition XLSX_PATH : string := BASENAME +:+ ".xlsx".

(** An upload, as [st.file_uploader] returns it: the file name and the
    bytes. *)
Record UploadedFile := {
  upload_name : string;
  upload_bytes : string;
}.

Global Instance UploadedFile_eq_dec : EqDecision UploadedFile.
Proof. solve_decision. Defined.

Inductive Source :=
  | uploaded (file : UploadedFile)
  | local_file (path : string)
  | remote (url : string).

(** [pd.read_csv] or [pd.read_excel]. *)
Inductive Reader :=
  | read_csv
  | read_excel.

(** What a run finds around it: the upload, if any; the files in the
    working directory; and what reading a source gives. *)
Record World := {
  uploaded_file : option UploadedFile;
  path_exists : string → bool;
  pd_read : Reader → Source → Result RawFrame;
}.

Inductive Notice :=
  | info (s : string)
  | sidebar_success (s : string)
  | error (t : Text).

(** How loading ends: with the table, with [st.stop()], or with an
    exception that nothing catches. *)
Inductive Load :=
  | Loaded (df : RawFrame)
  | Stopped
  | Crashed (exc : string).

Record LoadRun := {
  reads : list (Reader * Source);
  notices : list Notice;
  result : Load;
}.

(** What [st.cache_data] keeps of a call: the table returned and the
    messages shown while the body ran. *)
Definition Cached : Type := RawFrame * list Notice.

(** The caches of the two decorated functions.  They belong to the server
    and outlive the run: the one of [load_data] is keyed by its argument,
    the upload with its name and bytes; [load_default_data] takes no argument
    and has one entry. *)
Record Cache := {
  load_data_cache : UploadedFile → option Cached;
  load_default_data_cache : option Cached;
}.

(** [@st.cache_data] around a body.  On a hit the body does not run: a copy
    of the cached table is returned and the cached messages are shown again.
    On a miss the body runs and what it returns is stored; a body that ends
    in [st.stop()] or in an exception stores nothing. *)
Definition cache_data (entry : option Cached) (store : Cached → Cache) (c : Cache)
    (body : LoadRun) : LoadRun * Cache :=
  match entry with
  | Some (df, shown) => ({| reads := []; notices := shown; result := Loaded df |}, c)
  | None =>
    match result body with
    | Loaded df => (body, store (df, notices body))
    | _ => (body, c)
    end
  end.

Definition reading (w : World) (r : Reader) (src : Source) (notice : Notice) : LoadRun :=
  match pd_read w r src with
  | Ok df => {| reads := [(r, src)]; notices := [notice]; result := Loaded df |}
  | Raise e => {| reads := [(r, src)]; notices := []; result := Crashed e |}
  end.

(** Lines 31-41, the body of [load_data]. *)
Definition load_data_body (w : World) (file : UploadedFile) : LoadRun :=
  if endswith (upload_name file) ".csv" then
    reading w read_csv (uploaded file) (info "📄 Membaca data dari file CSV yang diunggah.")
  else if endswith (upload_name file) ".xlsx" then
    reading w read_excel (uploaded file) (info "📘 Membaca data dari file Excel yang diunggah.")
  else {| reads := []; notices := [error [lit "❌ Format file tidak didukung."]];
          result := Stopped |}.

(** Lines 29-30: [load_data] under its decorator. *)
Definition load_data (c : Cache) (w : World) (file : UploadedFile) : LoadRun * Cache :=
  cache_data (load_data_cache c file)
    (λ kept, {| load_data_cache := λ f, if decide (f = file) then Some kept
                                         else load_data_cache c f;
                load_default_data_cache := load_default_data_cache c |})
    c (load_data_body w file).

(** Lines 45-52, the body of [load_default_data]. *)
Definition load_default_data_body (w : World) : LoadRun :=
  match pd_read w read_csv (remote DATA_URL) with
  | Ok df => {| reads := [(read_csv, remote DATA_URL)];
                notices := [sidebar_success "🌐 Menggunakan dataset default dari sistem."];
                result := Loaded df |}
  | Raise e => {| reads := [(read_csv, remote DATA_URL)];
                  notices := [error [lit "Gagal memuat dataset default dari internet: "; lit e]];
                  result := Stopped |}
  end.

(** Lines 43-44: [load_default_data] under its decorator. *)
Definition load_default_data (c : Cache) (w : World) : LoadRun * Cache :=
  cache_data (load_default_data_cache c)
    (λ kept, {| load_data_cache := load_data_cache c;
                load_default_data_cache := Some kept |})
    c (load_default_data_body w).

(** Lines 55-68: one run of the loading, from the caches as the runs before
    left them to the caches as this run leaves them. *)
Definition load (c : Cache) (w : World) : LoadRun * Cache :=
  match uploaded_file w with
  | Some file => load_data c w file
  | None =>
    if path_exists w CSV_PATH then
      (reading w read_csv (local_file CSV_PATH)
         (sidebar_success ("📄 Membaca data dari file lokal: " +:+ CSV_PATH)), c)
    else if path_exists w XLSX_PATH then
      (reading w read_excel (local_file XLSX_PATH)
         (sidebar_success ("📘 Membaca data dari file lokal: " +:+ XLSX_PATH)), c)
    else load_default_data c w
  end.

(** A run whose table comes from a cached function: there is an upload, or
    neither local file exists. *)
Definition through_cache (w : World) : Prop :=
  is_Some (uploaded_file w) ∨
  (path_exists w CSV_PATH = false ∧ path_exists w XLSX_PATH = false).

(** Nothing cached yet, and two states of the world without upload and
    local files: the remote data set can be fetched, or it cannot. *)
Definition empty_cache : Cache :=
  {| load_data_cache := λ _, None; load_default_data_cache := None |}.

Definition world_online : World :=
  {| uploaded_file := None;
     path_exists := λ _, false;
     pd_read := λ _ _, Ok raw_sales |}.

Definition world_offline : World :=
  {| uploaded_file := None;
     path_exists := λ _, false;
     pd_read := λ _ _, Raise "URLError" |}.

(** Two rows, neither with a date that parses. *)
Definition raw_undated : RawFrame :=
  {| raw_len := 2;
     raw_Tanggal := Some [Str "kemarin"; NaN];
     raw_Wilayah := Some [Some "Medan"; Some "Medan"]%string;
     raw_Promosi := Some [Some 0; Some 1];
     raw_Penjualan := Some [Some 12; Some 7];
     raw_Nama_Produk := Some [Some "Beat"; Some "Vario"]%string |}.

(** A key column with a tie between two keys and a row without key. *)
Definition keys_tied : list (option string) :=
  [Some "Vario"; Some "Beat"; None; Some "Beat"; Some "Scoopy"]%string.
Definition vals_tied : list (option Z) := [Some 5; Some 3; Some 9; Some 2; None].

(** The units-only table with region and flag columns added: the date and
    product columns are still missing. *)
Definition raw_three_columns : RawFrame :=
  {| raw_len := 2;
     raw_Tanggal := None;
     raw_Wilayah := Some [Some "Medan"; None]%string;
     raw_Promosi := Some [Some 0; Some 1];
     raw_Penjualan := Some [Some 12; Some 7];
     raw_Nama_Produk := None |}.

(** * Properties *)

(** ** Positional selection *)

Lemma iloc_cons {A} (i : nat) (positions : list nat) (c : list A) :
  iloc (i :: positions) c =
  match c !! i with Some x => x :: iloc positions c | None => iloc positions c end.
Proof. reflexivity. Qed.

Lemma iloc_app {A} (p q : list nat) (c : list A) :
  iloc (p ++ q) c = iloc p c ++ iloc q c.
Proof. unfold iloc. apply omap_app. Qed.

Lemma iloc_fmap {A B} (f : A → B) (positions : list nat) (c : list A) :
  iloc positions (f <$> c) = f <$> iloc positions c.
Proof.
  induction positions as [|i positions IH]; [done|].
  rewrite !iloc_cons, list_lookup_fmap, IH. by destruct (c !! i).
Qed.

Lemma iloc_Permutation {A} (p q : list nat) (c : list A) :
  p ≡ₚ q → iloc p c ≡ₚ iloc q c.
Proof.
  induction 1 as [|i p q _ IH|i j p|p q r _ IH1 _ IH2]; [done| | |by etrans].
  - rewrite !iloc_cons. destruct (c !! i); by rewrite IH.
  - rewrite !iloc_cons. destruct (c !! i), (c !! j); try done. apply perm_swap.
Qed.

(** Selection by positions that all exist keeps their number and order. *)
Lemma iloc_lookup {A} (positions : list nat) (c : list A) (j : nat) :
  Forall (λ i, is_Some (c !! i)) positions →
  iloc positions c !! j = positions !! j ≫= (c !!.).
Proof.
  intros Hin. revert j. induction Hin as [|i positions [x Hx] _ IH]; intros j; [done|].
  rewrite iloc_cons, Hx. destruct j; simpl; [by rewrite Hx | apply IH].
Qed.

Lemma length_iloc {A} (positions : list nat) (c : list A) :
  Forall (λ i, is_Some (c !! i)) positions →
  length (iloc positions c) = length positions.
Proof.
  induction 1 as [|i positions [x Hx] _ IH]; [done|].
  rewrite iloc_cons, Hx. simpl. by rewrite IH.
Qed.

Lemma iloc_iloc {A} (p q : list nat) (c : list A) :
  Forall (λ i, is_Some (c !! i)) q →
  iloc (iloc p q) c = iloc p (iloc q c).
Proof.
  intros Hq. induction p as [|j p IH]; [done|].
  rewrite (iloc_cons j p q), (iloc_cons j p (iloc q c)), iloc_lookup by done.
  destruct (q !! j) as [i|] eqn:Hj; simpl; [|done].
  rewrite iloc_cons. destruct (c !! i); by rewrite IH.
Qed.

Lemma iloc_seq_from {A} (pre c : list A) :
  iloc (seq (length pre) (length c)) (pre ++ c) = c.
Proof.
  revert pre. induction c as [|x c IH]; intros pre; [done|].
  simpl. rewrite iloc_cons, list_lookup_middle by done.
  f_equal. specialize (IH (pre ++ [x])).
  rewrite length_app, <- app_assoc in IH. simpl in IH.
  by rewrite Nat.add_1_r in IH.
Qed.

Lemma iloc_seq {A} (c : list A) : iloc (seq 0 (length c)) c = c.
Proof. apply (iloc_seq_from []). Qed.

Lemma iloc_in_range {A} (positions : list nat) (c : list A) (n : nat) :
  length c = n → Forall (λ i, (i < n)%nat) positions →
  Forall (λ i, is_Some (c !! i)) positions.
Proof.
  intros <- Hin. eapply Forall_impl; [exact Hin|].
  intros i Hi. by apply lookup_lt_is_Some.
Qed.

(** ** Rows that survive [dropna] *)

Lemma notna_from_spec (k : nat) (c : list (option Timestamp)) (i : nat) (t : Timestamp) :
  (i, t) ∈ notna_from k c ↔ (k ≤ i)%nat ∧ c !! (i - k)%nat = Some (Some t).
Proof.
  revert k. induction c as [|d c IH]; intros k; simpl.
  - rewrite elem_of_nil. split; [done|]. by intros [_ ?].
  - assert (∀ k, (i, t) ∈ notna_from (S k) c ↔
                 (k < i)%nat ∧ c !! (i - S k)%nat = Some (Some t)) as IH'.
    { intros k'. rewrite IH. done. }
    destruct d as [t'|]; rewrite ?elem_of_cons, IH'.
    + split.
      * intros [[= -> ->]|[Hlt Hl]].
        -- split; [lia|]. by rewrite Nat.sub_diag.
        -- split; [lia|]. by replace (i - k)%nat with (S (i - S k)) by lia.
      * intros [Hle Hl]. destruct (decide (i = k)) as [->|Hne].
        -- rewrite Nat.sub_diag in Hl. simpl in Hl. left. congruence.
        -- right. split; [lia|].
           by replace (i - k)%nat with (S (i - S k)) in Hl by lia.
    + split.
      * intros [Hlt Hl]. split; [lia|].
        by replace (i - k)%nat with (S (i - S k)) by lia.
      * intros [Hle Hl]. destruct (decide (i = k)) as [->|Hne].
        -- by rewrite Nat.sub_diag in Hl.
        -- split; [lia|].
           by replace (i - k)%nat with (S (i - S k)) in Hl by lia.
Qed.

Lemma notna_spec (c : list (option Timestamp)) (i : nat) (t : Timestamp) :
  (i, t) ∈ notna c ↔ c !! i = Some (Some t).
Proof.
  unfold notna. rewrite notna_from_spec, Nat.sub_0_r. intuition lia.
Qed.

(** The kept labels select exactly the kept timestamps. *)
Lemma iloc_notna_from (pre c : list (option Timestamp)) :
  iloc (notna_from (length pre) c).*1 (pre ++ c) = Some <$> (notna_from (length pre) c).*2.
Proof.
  revert pre. induction c as [|d c IH]; intros pre; [done|].
  specialize (IH (pre ++ [d])).
  rewrite length_app, <- app_assoc in IH. simpl in IH.
  rewrite Nat.add_1_r in IH.
  destruct d as [t|]; simpl; [|done].
  rewrite iloc_cons, list_lookup_middle by done. by f_equal.
Qed.

Lemma iloc_notna (c : list (option Timestamp)) :
  iloc (notna c).*1 c = Some <$> (notna c).*2.
Proof. apply (iloc_notna_from []). Qed.

Lemma notna_in_range (c : list (option Timestamp)) :
  Forall (λ i, is_Some (c !! i)) (notna c).*1.
Proof.
  apply Forall_forall. intros i [[i' t] [-> Hit]]%list_elem_of_fmap.
  apply notna_spec in Hit. simpl. eauto.
Qed.

(** A column without NaT loses nothing. *)
Lemma notna_from_Some (k : nat) (ts : list Timestamp) :
  notna_from k (Some <$> ts) = zip (seq k (length ts)) ts.
Proof.
  revert k. induction ts as [|t ts IH]; intros k; [done|].
  simpl. by rewrite IH.
Qed.

(** ** The library instances are lawful *)

Global Instance key_le_trans : Transitive key_le.
Proof. intros x y z. unfold key_le. lia. Qed.

Global Instance key_le_total : Total key_le.
Proof. intros x y. unfold key_le. lia. Qed.

Lemma iloc_pairs (ks : list Z) (l : list (Z * nat)) :
  Forall (λ e, ks !! e.2 = Some e.1) l → iloc l.*2 ks = l.*1.
Proof.
  induction 1 as [|[k i] l Hk _ IH]; [done|].
  csimpl in *. by rewrite iloc_cons, Hk, IH.
Qed.

Lemma zip_seq_keys (ks : list Z) :
  Forall (λ e, ks !! e.2 = Some e.1) (zip ks (seq 0 (length ks))).
Proof.
  apply Forall_lookup. intros j [k i] Hj.
  apply lookup_zip_with_Some in Hj as (k' & i' & [= -> ->] & Hk & Hi).
  apply lookup_seq in Hi as [-> _]. done.
Qed.

Lemma stable_argsort_perm (ks : list Z) : stable_argsort ks ≡ₚ seq 0 (length ks).
Proof.
  unfold stable_argsort. rewrite merge_sort_Permutation.
  by rewrite snd_zip by (rewrite length_seq; lia).
Qed.

Lemma stable_argsort_sorted (ks : list Z) :
  StronglySorted Z.le (iloc (stable_argsort ks) ks).
Proof.
  unfold stable_argsort. rewrite iloc_pairs.
  - eapply StronglySorted_fmap; [|apply (StronglySorted_merge_sort key_le)].
    intros x y Hxy. exact Hxy.
  - rewrite merge_sort_Permutation. apply zip_seq_keys.
Qed.

Lemma checked_argsort_perm (ks : list Z) : checked_argsort ks ≡ₚ seq 0 (length ks).
Proof.
  unfold checked_argsort, argsort_okb.
  destruct (bool_decide (Numpy.argsort ks ≡ₚ _)) eqn:Hp; simpl.
  - apply bool_decide_eq_true in Hp.
    by destruct (bool_decide (StronglySorted _ _)); [|apply stable_argsort_perm].
  - apply stable_argsort_perm.
Qed.

Lemma checked_argsort_sorted (ks : list Z) :
  StronglySorted Z.le (iloc (checked_argsort ks) ks).
Proof.
  unfold checked_argsort, argsort_okb.
  destruct (bool_decide (Numpy.argsort ks ≡ₚ _)); simpl;
    [|apply stable_argsort_sorted].
  destruct (bool_decide (StronglySorted _ _)) eqn:Hs;
    [by apply bool_decide_eq_true in Hs | apply stable_argsort_sorted].
Qed.

(** [sort_values] as pandas runs it by default. *)
Definition numpy_sort : ArgSort :=
  {| argsort := checked_argsort;
     argsort_perm := checked_argsort_perm;
     argsort_sorted := checked_argsort_sorted |}.

Lemma lcg_randbelow_lt (n : nat) (g : N) :
  (0 < n)%nat → ((lcg_randbelow n g).1 < n)%nat.
Proof.
  intros Hn. unfold lcg_randbelow. simpl.
  assert (((g / 65536) mod N.of_nat n < N.of_nat n)%N) by (apply N.mod_lt; lia).
  lia.
Qed.

Definition lcg : RandomGen N :=
  {| randbelow := lcg_randbelow; randbelow_lt := lcg_randbelow_lt |}.

Lemma parse_cell_length (c : list Cell) : length (parse_cell <$> c) = length c.
Proof. apply length_fmap. Qed.

Lemma parse_cell_Time (ts : list Timestamp) : parse_cell <$> (Time <$> ts) = Some <$> ts.
Proof. by rewrite <- list_fmap_compose. Qed.

Definition iso_dates : DateParser :=
  {| to_datetime := fmap parse_cell;
     to_datetime_length := parse_cell_length;
     to_datetime_Time := parse_cell_Time |}.

Lemma naive_forecast_steps (endog : Series) (order : nat * nat * nat)
    (steps : nat) (fc : list Z) :
  naive_forecast endog order steps = Ok fc → length fc = steps.
Proof.
  unfold naive_forecast. destruct (mapM snd endog) as [ys|]; [|done].
  destruct (length ys <? 3)%nat; [done|]. intros [= <-]. apply length_replicate.
Qed.

Definition naive : Arima :=
  {| prediction := Z;
     ARIMA_fit_forecast := naive_forecast;
     forecast_steps := naive_forecast_steps |}.

Lemma int64_small (z : Z) : - 2 ^ 63 ≤ z < 2 ^ 63 → int64 z = z.
Proof. intros Hz. unfold int64. rewrite Z.mod_small; lia. Qed.

Lemma int64_sum_from (acc : Z) (c : list (option Z)) :
  Z.abs acc + abs_total c ≤ 2 ^ 53 →
  foldl (λ acc x, int64 (acc + default 0 x)) acc c = acc + exact_sum c.
Proof.
  revert acc. unfold abs_total, exact_sum.
  induction c as [|x c IH]; intros acc Hb; simpl in *; [lia|].
  assert (0 ≤ foldr (λ x acc, Z.abs (default 0 x) + acc) 0 c) as Hpos.
  { clear. induction c; simpl; lia. }
  rewrite int64_small by lia. rewrite IH by lia. lia.
Qed.

Lemma int64_sum_exact (c : list (option Z)) :
  abs_total c ≤ 2 ^ 53 → int64_sum c = exact_sum c.
Proof. intros Hb. unfold int64_sum. rewrite int64_sum_from; simpl; lia. Qed.

(** Beyond the range the [int64] sum is not the sum of the integers. *)
Example int64_sum_wraps : int64_sum [Some (2 ^ 63 - 1); Some 1] = - 2 ^ 63.
Proof. reflexivity. Qed.

Definition int64_sums : Sums :=
  {| Series_sum := int64_sum;
     group_sum := int64_sum;
     Series_sum_exact := int64_sum_exact;
     group_sum_exact := int64_sum_exact |}.

(** ** Random draws *)

Section draws_facts.
Context {G : Type} `{RandomGen G}.

Lemma draws_Forall {A} (P : A → Prop) (c : Rand G A) (n : nat) (g : G) :
  (∀ g', P (c g').1) → Forall P (draws n c g).1.
Proof.
  intros Hc. revert g. induction n as [|n IH]; intros g; [constructor|].
  simpl. unfold bind, ret. specialize (Hc g). destruct (c g) as [x g1].
  specialize (IH g1). destruct (draws n c g1) as [xs g2]. simpl in *.
  by constructor.
Qed.

Lemma length_draws {A} (c : Rand G A) (n : nat) (g : G) :
  length (draws n c g).1 = n.
Proof.
  revert g. induction n as [|n IH]; intros g; [done|].
  simpl. unfold bind, ret. destruct (c g) as [x g1].
  specialize (IH g1). destruct (draws n c g1) as [xs g2]. simpl in *.
  by rewrite IH.
Qed.

Lemma bind_eq {A B} (c : Rand G A) (k : A → Rand G B) (g : G) :
  bind c k g = k (c g).1 (c g).2.
Proof. unfold bind. by destruct (c g). Qed.

Lemma random_randint_range (a b : Z) (g : G) :
  a ≤ b → a ≤ (random_randint a b g).1 ≤ b.
Proof.
  intros Hab. unfold random_randint.
  pose proof (randbelow_lt (Z.to_nat (b - a + 1)) g) as Hlt.
  destruct (randbelow _ g) as [i g']. simpl in *. lia.
Qed.
End draws_facts.

(** ** The prepared table, column by column *)

Section persiapan_facts.
Context {G : Type} `{RandomGen G} `{DateParser} `{ArgSort}.

Lemma persiapan_data_unfold (raw : RawFrame) (g : G) :
  let labels := sorted_labels raw in
  let n := length labels in
  ∃ g1 g2 g3,
    let w := backfill (raw_Wilayah raw) labels
               (draws n (bind (random_choice EmptyString wilayah_list) (λ w, ret (Some w)))) g in
    let p := backfill (raw_Promosi raw) labels
               (draws n (bind (random_choice 0 [0; 1]) (λ p, ret (Some p)))) g1 in
    let u := backfill (raw_Penjualan raw) labels
               (draws n (bind (random_randint 20 200) (λ u, ret (Some u)))) g2 in
    let m := backfill (raw_Nama_Produk raw) labels
               (ret ((λ i, Some (motor_label i)) <$> seq 0 n)) g3 in
    g1 = w.2 ∧ g2 = p.2 ∧ g3 = u.2 ∧
    persiapan_data raw g =
      ({| index := labels;
          Tanggal := iloc labels (tanggal_parsed raw);
          Wilayah := w.1; Promosi := p.1; Penjualan := u.1; Nama_Produk := m.1 |},
       m.2).
Proof.
  intros labels n. unfold persiapan_data. rewrite !bind_eq.
  eexists _, _, _. by repeat split.
Qed.

Lemma persiapan_index (raw : RawFrame) (g : G) :
  index (persiapan_data raw g).1 = sorted_labels raw.
Proof.
  destruct (persiapan_data_unfold raw g) as (g1 & g2 & g3 & _ & _ & _ & ->). done.
Qed.

Lemma persiapan_Tanggal (raw : RawFrame) (g : G) :
  Tanggal (persiapan_data raw g).1 =
  Some <$> iloc (argsort (kept_keys raw)) (kept_keys raw).
Proof.
  destruct (persiapan_data_unfold raw g) as (g1 & g2 & g3 & _ & _ & _ & ->). simpl.
  unfold sorted_labels, kept_keys.
  rewrite iloc_iloc by apply notna_in_range.
  by rewrite iloc_notna, iloc_fmap.
Qed.

Lemma argsort_in_range (ks : list Z) :
  Forall (λ i, is_Some (ks !! i)) (argsort ks).
Proof.
  rewrite argsort_perm. apply Forall_forall. intros i Hi%elem_of_seq.
  apply lookup_lt_is_Some. lia.
Qed.

Lemma length_argsort (ks : list Z) : length (argsort ks) = length ks.
Proof. by rewrite argsort_perm, length_seq. Qed.

Lemma length_sorted_labels (raw : RawFrame) :
  length (sorted_labels raw) = length (kept_keys raw).
Proof.
  unfold sorted_labels, kept_keys. rewrite length_iloc.
  - by rewrite length_argsort, !length_fmap.
  - eapply Forall_impl; [apply argsort_in_range|].
    intros i Hi%lookup_lt_is_Some. apply lookup_lt_is_Some.
    rewrite length_fmap in Hi. by rewrite length_fmap.
Qed.

(** The sort keeps exactly the rows that survived [dropna]. *)
Lemma sorted_labels_perm (raw : RawFrame) :
  sorted_labels raw ≡ₚ (notna (tanggal_parsed raw)).*1.
Proof.
  unfold sorted_labels. set (kept := notna (tanggal_parsed raw)).
  rewrite (iloc_Permutation _ (seq 0 (length kept.*1))).
  - by rewrite iloc_seq.
  - by rewrite argsort_perm, !length_fmap.
Qed.

Lemma sorted_labels_in_range (raw : RawFrame) :
  Forall (λ i, is_Some (tanggal_parsed raw !! i)) (sorted_labels raw).
Proof. rewrite sorted_labels_perm. apply notna_in_range. Qed.

Lemma sorted_labels_lt (raw : RawFrame) :
  Forall (λ i, (i < length (tanggal_parsed raw))%nat) (sorted_labels raw).
Proof.
  eapply Forall_impl; [apply sorted_labels_in_range|].
  intros i Hi. by apply lookup_lt_is_Some.
Qed.
End persiapan_facts.

(** ** Sorted columns *)

Lemma StronglySorted_lookup_le (l : list Z) (i j : nat) (x y : Z) :
  StronglySorted Z.le l → (i ≤ j)%nat → l !! i = Some x → l !! j = Some y → x ≤ y.
Proof.
  intros Hs. revert i j. induction Hs as [|z l _ IH Hz]; intros i j Hij Hi Hj; [done|].
  destruct i as [|i], j as [|j]; simpl in *; try lia.
  - simplify_eq. lia.
  - simplify_eq. rewrite Forall_lookup in Hz. eauto.
  - apply (IH i j); [lia|done..].
Qed.

Lemma StronglySorted_lt_le (l : list Z) :
  StronglySorted Z.lt l → StronglySorted Z.le l.
Proof.
  induction 1 as [|z l _ IH Hz]; constructor; [done|].
  eapply Forall_impl; [exact Hz|]. intros; lia.
Qed.

Lemma StronglySorted_lt_NoDup (l : list Z) : StronglySorted Z.lt l → NoDup l.
Proof.
  induction 1 as [|z l _ IH Hz]; constructor; [|done].
  intros Hin. rewrite Forall_forall in Hz. specialize (Hz _ Hin). lia.
Qed.

Lemma date_range_from_sorted (start : Timestamp) (k n : nat) :
  StronglySorted Z.lt ((λ i : nat, start + timedelta_days (Z.of_nat i)) <$> seq k n).
Proof.
  revert k. induction n as [|n IH]; intros k; [constructor|].
  simpl. constructor; [apply IH|].
  apply Forall_fmap, Forall_forall. intros i Hi%elem_of_seq.
  simpl. unfold timedelta_days, ns_per_day. lia.
Qed.

Lemma date_range_sorted (start : Timestamp) (n : nat) :
  StronglySorted Z.lt (date_range start n).
Proof. apply date_range_from_sorted. Qed.

Lemma length_date_range (start : Timestamp) (n : nat) : length (date_range start n) = n.
Proof. unfold date_range. by rewrite length_fmap, length_seq. Qed.

Lemma date_range_lookup (start : Timestamp) (n i : nat) :
  (i < n)%nat → date_range start n !! i = Some (start + timedelta_days (Z.of_nat i)).
Proof.
  intros Hi. unfold date_range. by rewrite list_lookup_fmap, lookup_seq_lt.
Qed.

Section sorting_facts.
Context `{ArgSort}.

(** Keys that already ascend strictly are left where they are. *)
Lemma argsort_increasing (ks : list Z) :
  StronglySorted Z.lt ks → argsort ks = seq 0 (length ks).
Proof.
  intros Hlt.
  assert (iloc (argsort ks) ks = ks) as Hsame.
  { apply (StronglySorted_unique Z.le).
    - apply argsort_sorted.
    - by apply StronglySorted_lt_le.
    - rewrite (iloc_Permutation _ _ _ (argsort_perm ks)). by rewrite iloc_seq. }
  apply list_eq. intros j.
  pose proof (iloc_lookup (argsort ks) ks j (argsort_in_range ks)) as Hj.
  rewrite Hsame in Hj.
  destruct (decide (j < length ks)%nat) as [Hlen|Hlen].
  - rewrite lookup_seq_lt by done. simpl.
    destruct (lookup_lt_is_Some_2 ks j Hlen) as [k Hk]. rewrite Hk in Hj.
    destruct (argsort ks !! j) as [i|] eqn:Hi; [|done]. simpl in Hj.
    f_equal. symmetry in Hj.
    by apply (NoDup_lookup ks i j k); [apply StronglySorted_lt_NoDup|..].
  - rewrite !lookup_ge_None_2; [done|rewrite length_seq; lia|].
    rewrite length_argsort. lia.
Qed.
End sorting_facts.

(** ** Claims: data preparation *)

Section persiapan_claims.
Context {G : Type} `{RandomGen G} `{DateParser} `{ArgSort}.

Lemma Tanggal_ascending (raw : RawFrame) (g : G) :
  ∃ ts : list Timestamp,
    Tanggal (persiapan_data raw g).1 = Some <$> ts ∧ StronglySorted Z.le ts.
Proof.
  exists (iloc (argsort (kept_keys raw)) (kept_keys raw)).
  split; [apply persiapan_Tanggal | apply argsort_sorted].
Qed.

(** C2. For every input table, after preparation (date parsing, dropping
    the rows whose date does not parse, sorting) the date column holds no
    null and is monotonically non-decreasing: it is a list of timestamps
    in ascending order. *)
Theorem C2_Tanggal_non_null_ascending (raw : RawFrame) (g : G) :
  ∃ ts : list Timestamp,
    Tanggal (persiapan_data raw g).1 = Some <$> ts ∧ StronglySorted Z.le ts.
Proof.
  apply Tanggal_ascending.
Qed.

(** The date of the row at position [i] is the parsed date of the source
    row whose label the position carries. *)
Lemma persiapan_Tanggal_lookup (raw : RawFrame) (g : G) (i a : nat) :
  index (persiapan_data raw g).1 !! i = Some a →
  Tanggal (persiapan_data raw g).1 !! i = tanggal_parsed raw !! a.
Proof.
  destruct (persiapan_data_unfold raw g) as (g1 & g2 & g3 & _ & _ & _ & ->). simpl.
  intros Hi. rewrite iloc_lookup by apply sorted_labels_in_range.
  by rewrite Hi.
Qed.

(** C3 (amended). For every input table, the sort by date keeps each row
    that survived [dropna] exactly once and puts a row with an earlier date
    before every row with a later date.  Nothing is fixed for rows that
    share a date. *)
Theorem C3_sort_orders_rows_by_date (raw : RawFrame) (g : G) :
  let d := (persiapan_data raw g).1 in
  index d ≡ₚ (notna (tanggal_parsed raw)).*1 ∧
  ∀ i j a b ta tb,
    index d !! i = Some a → index d !! j = Some b →
    tanggal_parsed raw !! a = Some (Some ta) →
    tanggal_parsed raw !! b = Some (Some tb) →
    ta < tb → (i < j)%nat.
Proof.
  intros d. split.
  { unfold d. rewrite persiapan_index. apply sorted_labels_perm. }
  intros i j a b ta tb Hi Hj Ha Hb Hlt.
  destruct (Tanggal_ascending raw g) as (ts & Hts & Hsorted).
  pose proof (persiapan_Tanggal_lookup raw g i a Hi) as Hti.
  pose proof (persiapan_Tanggal_lookup raw g j b Hj) as Htj.
  fold d in Hts, Hti, Htj.
  rewrite Hts, list_lookup_fmap, Ha in Hti.
  rewrite Hts, list_lookup_fmap, Hb in Htj.
  destruct (ts !! i) as [ti|] eqn:Ei; [|done].
  destruct (ts !! j) as [tj|] eqn:Ej; [|done].
  simpl in *. simplify_eq.
  destruct (decide (i < j)%nat) as [|Hge]; [done|].
  assert (tb ≤ ta); [|lia].
  apply (StronglySorted_lookup_le ts j i); [done|lia|done..].
Qed.
(** *** Well-formed sources *)

Lemma col_ok_length {A} (n : nat) (c : option (list A)) (l : list A) :
  col_okb n c → c = Some l → length l = n.
Proof. intros Hok ->. simpl in Hok. by apply Nat.eqb_eq, Is_true_eq_true. Qed.

Lemma length_tanggal_parsed (raw : RawFrame) :
  raw_okb raw → length (tanggal_parsed raw) = raw_len raw.
Proof.
  unfold raw_okb. rewrite !andb_True. intros ((((Ht & _) & _) & _) & _).
  unfold tanggal_parsed. rewrite to_datetime_length.
  destruct (raw_Tanggal raw) as [c|] eqn:Hc.
  - by eapply col_ok_length.
  - by rewrite length_fmap, length_date_range.
Qed.

Lemma labels_in_column {A} (raw : RawFrame) (c : list A) :
  raw_okb raw → length c = raw_len raw →
  Forall (λ i, is_Some (c !! i)) (sorted_labels raw).
Proof.
  intros Hok Hlen. eapply iloc_in_range; [done|].
  rewrite <- (length_tanggal_parsed raw Hok). apply sorted_labels_lt.
Qed.

(** A present column is the source column read at the surviving labels. *)
Lemma backfill_present {A} (c : list A) (labels : list nat) (gen : Rand G (list A)) (g : G) :
  backfill (Some c) labels gen g = (iloc labels c, g).
Proof. reflexivity. Qed.

Lemma kept_cell {A} (raw : RawFrame) (c : list A) (i a : nat) :
  raw_okb raw → length c = raw_len raw →
  sorted_labels raw !! i = Some a →
  iloc (sorted_labels raw) c !! i = c !! a.
Proof.
  intros Hok Hlen Hi. rewrite iloc_lookup by by apply labels_in_column.
  by rewrite Hi.
Qed.

(** C6. Backfill happens only for a column that is entirely absent: when
    region, promotion flag, units sold or product id is present in the
    source, every cell of the prepared column, null cells included, is the
    source cell of the row it belongs to. *)
Theorem C6_present_columns_unchanged (raw : RawFrame) (g : G) (i a : nat) :
  raw_okb raw →
  let d := (persiapan_data raw g).1 in
  index d !! i = Some a →
  (∀ c, raw_Wilayah raw = Some c → Wilayah d !! i = c !! a) ∧
  (∀ c, raw_Promosi raw = Some c → Promosi d !! i = c !! a) ∧
  (∀ c, raw_Penjualan raw = Some c → Penjualan d !! i = c !! a) ∧
  (∀ c, raw_Nama_Produk raw = Some c → Nama_Produk d !! i = c !! a).
Proof.
  intros Hok d. unfold d.
  destruct (persiapan_data_unfold raw g) as (g1 & g2 & g3 & _ & _ & _ & ->). simpl.
  intros Hi. pose proof Hok as Hcols. unfold raw_okb in Hcols.
  rewrite !andb_True in Hcols. destruct Hcols as ((((_ & Hw) & Hp) & Hu) & Hm).
  repeat split; intros c Hc; rewrite Hc, backfill_present; simpl;
    apply kept_cell; try done; (eapply col_ok_length; [|exact Hc]; done).
Qed.

(** C8. When the units-sold column is absent, every generated value is an
    integer between 20 and 200, both included. *)
Theorem C8_synthesized_units_in_range (raw : RawFrame) (g : G) :
  raw_Penjualan raw = None →
  Forall (λ x, ∃ z : Z, x = Some z ∧ 20 ≤ z ≤ 200) (Penjualan (persiapan_data raw g).1).
Proof.
  intros Hnone.
  destruct (persiapan_data_unfold raw g) as (g1 & g2 & g3 & _ & _ & _ & ->). simpl.
  rewrite Hnone. simpl. apply draws_Forall. intros g'.
  rewrite bind_eq. simpl. eexists. split; [done|].
  by apply random_randint_range.
Qed.

(** C10. When the source has all five recognised columns, preparation draws
    no random number: the generator is left as it was, and the prepared
    table is the same whatever the generator state. *)
Theorem C10_all_columns_deterministic (raw : RawFrame) (g g' : G) :
  is_Some (raw_Tanggal raw) → is_Some (raw_Wilayah raw) →
  is_Some (raw_Promosi raw) → is_Some (raw_Penjualan raw) →
  is_Some (raw_Nama_Produk raw) →
  (persiapan_data raw g).2 = g ∧
  (persiapan_data raw g).1 = (persiapan_data raw g').1.
Proof.
  intros _ [w Hw] [p Hp] [u Hu] [m Hm].
  unfold persiapan_data. rewrite !bind_eq, Hw, Hp, Hu, Hm. done.
Qed.
End persiapan_claims.

(** ** Claims: generated dates and product labels *)

Lemma motor_label_mod (i : nat) : motor_label (i mod 5) = motor_label i.
Proof. unfold motor_label. by rewrite Nat.Div0.mod_mod. Qed.

Lemma motor_cycle_NoDup (n : nat) : (n ≤ 5)%nat → NoDup (motor_cycle n).
Proof.
  intros Hn. assert (NoDup (motor_cycle 5)) as H5.
  { apply (bool_decide_eq_true_1 (NoDup (motor_cycle 5))). by vm_compute. }
  replace (motor_cycle n) with (take n (motor_cycle 5)).
  - eapply sublist_NoDup; [exact H5|apply sublist_take].
  - unfold motor_cycle. rewrite <- fmap_take. f_equal.
    rewrite take_seq. f_equal. lia.
Qed.

Lemma motor_cycle_elem (n : nat) (x : option string) :
  x ∈ motor_cycle n ↔ x ∈ motor_cycle (n `min` 5).
Proof.
  unfold motor_cycle. rewrite !list_elem_of_fmap. split.
  - intros (i & -> & Hi%elem_of_seq). exists (i mod 5)%nat.
    rewrite motor_label_mod. split; [done|]. apply elem_of_seq.
    pose proof (Nat.mod_upper_bound i 5). pose proof (Nat.Div0.mod_le i 5). lia.
  - intros (i & -> & Hi%elem_of_seq). exists i. split; [done|].
    apply elem_of_seq. lia.
Qed.

Lemma motor_cycle_distinct (n : nat) :
  size (list_to_set (motor_cycle n) : gset (option string)) = (n `min` 5)%nat.
Proof.
  assert ((list_to_set (motor_cycle n) : gset (option string))
          = list_to_set (motor_cycle (n `min` 5))) as ->.
  { apply set_eq. intros x. rewrite !elem_of_list_to_set. apply motor_cycle_elem. }
  rewrite size_list_to_set by (apply motor_cycle_NoDup; lia).
  unfold motor_cycle. by rewrite length_fmap, length_seq.
Qed.

Section synthesis_claims.
Context {G : Type} `{RandomGen G} `{DateParser} `{ArgSort}.

Lemma persiapan_Nama_Produk_absent (raw : RawFrame) (g : G) :
  raw_Nama_Produk raw = None →
  Nama_Produk (persiapan_data raw g).1 = motor_cycle (len (persiapan_data raw g).1).
Proof.
  intros Hnone.
  destruct (persiapan_data_unfold raw g) as (g1 & g2 & g3 & _ & _ & _ & ->). simpl.
  by rewrite Hnone.
Qed.

(** C4 (amended). When the source has no product column, the row at
    position i of the prepared table receives the label Motor-((i mod 5)+1);
    the labels in use are min(n, 5) in number for a table of n rows, so
    exactly 5 as soon as the table has 5 rows. *)
Theorem C4_labels_cycle_through_five (raw : RawFrame) (g : G) :
  raw_Nama_Produk raw = None →
  let d := (persiapan_data raw g).1 in
  length (Nama_Produk d) = len d ∧
  (∀ i, (i < len d)%nat →
        Nama_Produk d !! i = Some (Some ("Motor-" +:+ pretty (i mod 5 + 1)%nat)%string)) ∧
  size (list_to_set (Nama_Produk d) : gset (option string)) = (len d `min` 5)%nat.
Proof.
  intros Hnone d. unfold d. rewrite persiapan_Nama_Produk_absent by done.
  split; [|split].
  - unfold motor_cycle. by rewrite length_fmap, length_seq.
  - intros i Hi. unfold motor_cycle. by rewrite list_lookup_fmap, lookup_seq_lt.
  - apply motor_cycle_distinct.
Qed.

Lemma tanggal_parsed_absent (raw : RawFrame) :
  raw_Tanggal raw = None →
  tanggal_parsed raw = Some <$> date_range (timestamp_ymd 2023 1 1) (raw_len raw).
Proof. intros Hnone. unfold tanggal_parsed. by rewrite Hnone, to_datetime_Time. Qed.

(** C5. When the source has no date column, the prepared date column is
    the daily sequence that starts on 2023-01-01 and has one date per source
    row, in source order: no row is dropped or moved. *)
Theorem C5_dates_from_epoch (raw : RawFrame) (g : G) :
  raw_Tanggal raw = None →
  let d := (persiapan_data raw g).1 in
  index d = seq 0 (raw_len raw) ∧
  length (Tanggal d) = raw_len raw ∧
  ∀ i : nat, (i < raw_len raw)%nat →
    Tanggal d !! i = Some (Some (timestamp_ymd 2023 1 1 + timedelta_days (Z.of_nat i))).
Proof.
  intros Hnone d. set (ts := date_range (timestamp_ymd 2023 1 1) (raw_len raw)).
  assert (length ts = raw_len raw) as Hlen by apply length_date_range.
  assert (notna (tanggal_parsed raw) = zip (seq 0 (raw_len raw)) ts) as Hkept.
  { rewrite tanggal_parsed_absent by done. unfold notna.
    fold ts. by rewrite notna_from_Some, Hlen. }
  assert (kept_keys raw = ts) as Hkeys.
  { unfold kept_keys. rewrite Hkept. apply snd_zip. rewrite length_seq. lia. }
  assert (argsort ts = seq 0 (raw_len raw)) as Hsort.
  { rewrite <- Hlen. apply argsort_increasing, date_range_sorted. }
  assert (index d = seq 0 (raw_len raw)) as Hindex.
  { unfold d. rewrite persiapan_index. unfold sorted_labels.
    rewrite Hkept, snd_zip, fst_zip, Hsort by (rewrite length_seq; lia).
    pose proof (iloc_seq (seq 0 (raw_len raw))) as Hs.
    by rewrite length_seq in Hs. }
  assert (Tanggal d = Some <$> ts) as Hdates.
  { unfold d. rewrite persiapan_Tanggal, Hkeys, Hsort, <- Hlen. by rewrite iloc_seq. }
  split; [done|]. rewrite Hdates. split.
  - by rewrite length_fmap.
  - intros i Hi. rewrite list_lookup_fmap. unfold ts.
    by rewrite date_range_lookup.
Qed.
End synthesis_claims.

(** ** Masks, maxima and groups *)

Lemma mask_from_spec (k : nat) (mask : list bool) (i : nat) :
  i ∈ mask_from k mask ↔ (k ≤ i)%nat ∧ mask !! (i - k)%nat = Some true.
Proof.
  revert k. induction mask as [|b mask IH]; intros k; simpl.
  - rewrite elem_of_nil. split; [done|]. by intros [_ ?].
  - assert (∀ k, i ∈ mask_from (S k) mask ↔
                 (k < i)%nat ∧ mask !! (i - S k)%nat = Some true) as IH'.
    { intros k'. by rewrite IH. }
    destruct (decide (i = k)) as [->|Hne].
    + rewrite Nat.sub_diag. simpl. destruct b; rewrite ?elem_of_cons, IH'.
      * split; [intros _; split; [lia|done] | by left].
      * split; [lia | by intros [_ ?]].
    + destruct b; rewrite ?elem_of_cons, IH'; (split; [intros Hi|intros [Hle Hl]]).
      * destruct Hi as [?|[Hlt Hl]]; [done|]. split; [lia|].
        by replace (i - k)%nat with (S (i - S k)) by lia.
      * right. split; [lia|].
        by replace (i - k)%nat with (S (i - S k)) in Hl by lia.
      * destruct Hi as [Hlt Hl]. split; [lia|].
        by replace (i - k)%nat with (S (i - S k)) by lia.
      * split; [lia|].
        by replace (i - k)%nat with (S (i - S k)) in Hl by lia.
Qed.

Lemma mask_positions_spec (mask : list bool) (i : nat) :
  i ∈ mask_positions mask ↔ mask !! i = Some true.
Proof.
  unfold mask_positions. rewrite mask_from_spec, Nat.sub_0_r. intuition lia.
Qed.

Lemma mask_positions_lt (mask : list bool) :
  Forall (λ i, (i < length mask)%nat) (mask_positions mask).
Proof.
  apply Forall_forall. intros i Hi%mask_positions_spec. by eapply lookup_lt_Some.
Qed.

Lemma elem_of_iloc {A} (positions : list nat) (c : list A) (i : nat) (x : A) :
  i ∈ positions → c !! i = Some x → x ∈ iloc positions c.
Proof.
  intros Hi Hx. induction positions as [|j positions IH]; [by apply elem_of_nil in Hi|].
  rewrite iloc_cons. apply elem_of_cons in Hi as [<-|Hi].
  - rewrite Hx. by left.
  - destruct (c !! j); [right|]; by apply IH.
Qed.

Lemma iloc_elem_of {A} (positions : list nat) (c : list A) (x : A) :
  x ∈ iloc positions c → x ∈ c.
Proof.
  unfold iloc. intros (i & _ & Hi)%list_elem_of_omap. by eapply list_elem_of_lookup_2.
Qed.

Lemma length_iloc_le {A} (positions : list nat) (c : list A) :
  (length (iloc positions c) ≤ length positions)%nat.
Proof.
  induction positions as [|i positions IH]; [done|].
  rewrite iloc_cons. destruct (c !! i); simpl; lia.
Qed.

Section page_facts.
Context `{Arima} `{Sums}.

Lemma Tanggal_max_is_Some (c : list (option Z)) (t : Z) :
  Some t ∈ c → is_Some (Tanggal_max c).
Proof.
  induction c as [|d c IH]; [by intros ?%elem_of_nil|].
  intros [<-|Hin]%elem_of_cons; simpl.
  - destruct (Tanggal_max c); eauto.
  - destruct (IH Hin) as [m ->]. destruct d; eauto.
Qed.

Lemma Tanggal_max_elem (c : list (option Z)) (m : Z) :
  Tanggal_max c = Some m → Some m ∈ c.
Proof.
  revert m. induction c as [|d c IH]; intros m; [done|]. simpl.
  destruct d as [t|]; [|intros ?; right; eauto].
  destruct (Tanggal_max c) as [m'|] eqn:Hm'.
  - intros [= <-]. destruct (Z.max_spec t m') as [[_ ->]|[_ ->]]; [right; eauto|by left].
  - intros [= <-]. by left.
Qed.

Lemma Tanggal_max_ge (c : list (option Z)) (m t : Z) :
  Tanggal_max c = Some m → Some t ∈ c → t ≤ m.
Proof.
  revert m. induction c as [|d c IH]; intros m; [by intros _ ?%elem_of_nil|]. simpl.
  intros Hm [<-|Hin]%elem_of_cons.
  - destruct (Tanggal_max c); simplify_eq; lia.
  - destruct d as [t'|]; [|eauto].
    destruct (Tanggal_max c) as [m'|] eqn:Hm'.
    + simplify_eq. specialize (IH m' eq_refl Hin). lia.
    + destruct (Tanggal_max_is_Some c t Hin) as [? ?]. congruence.
Qed.

Lemma elem_of_unique (c : list (option string)) (x : option string) :
  x ∈ unique c ↔ x ∈ c.
Proof. unfold unique. by rewrite elem_of_reverse, elem_of_remove_dups, elem_of_reverse. Qed.

Lemma selectbox_elem_of (c : list (option string)) (pick : nat) (p : string) :
  selectbox (unique c) pick = Some p → Some p ∈ c.
Proof.
  unfold selectbox. destruct (unique c !! pick) as [[q|]|] eqn:Hq; simpl; try done.
  intros [= ->]. apply elem_of_unique. by eapply list_elem_of_lookup_2.
Qed.

Lemma eq_mask_true (c : list (option string)) (p : string) (i : nat) :
  eq_mask c (Some p) !! i = Some true ↔ c !! i = Some (Some p).
Proof.
  unfold eq_mask. rewrite list_lookup_fmap.
  destruct (c !! i) as [[q|]|]; simpl; [|by split..].
  case_bool_decide; split; congruence.
Qed.

Lemma ge_mask_true (c : list (option Z)) (k : Z) (i : nat) :
  ge_mask c (Some k) !! i = Some true ↔ ∃ t, c !! i = Some (Some t) ∧ k ≤ t.
Proof.
  unfold ge_mask. rewrite list_lookup_fmap.
  destruct (c !! i) as [[t|]|]; simpl;
    [|by split; [|intros (? & ? & _)]..].
  destruct (Z.leb_spec k t); (split; [intros ?|intros (t' & [= <-] & ?)]);
    try done; [by eauto|lia].
Qed.

(** A forecast that was fitted is laid out on the seven days after the
    last date of the series. *)
Lemma forecast_df_Ok (df_produk : Frame) (fc : list prediction) (last : Z) :
  ARIMA_fit_forecast (Penjualan_series df_produk) (1, 1, 1)%nat 7 = Ok fc →
  Tanggal_max (Tanggal df_produk) = Some last →
  ∃ fdf, forecast_df df_produk = Ok fdf ∧ length fdf = 7%nat ∧ fdf.*2 = fc ∧
         fdf.*1 = [last + timedelta_days 1; last + timedelta_days 2;
                   last + timedelta_days 3; last + timedelta_days 4;
                   last + timedelta_days 5; last + timedelta_days 6;
                   last + timedelta_days 7].
Proof.
  intros Hfit Hmax. unfold forecast_df. rewrite Hfit, Hmax.
  pose proof (forecast_steps _ _ _ _ Hfit) as Hlen.
  unfold DataFrame_forecast. rewrite length_date_range.
  destruct (decide (7%nat = length fc)) as [_|]; [|done].
  eexists. split; [done|]. split; [|split].
  - by rewrite length_zip_with, length_date_range, Hlen.
  - apply snd_zip. rewrite length_date_range. lia.
  - rewrite fst_zip by (rewrite length_date_range; lia).
    unfold date_range. cbn [seq fmap list_fmap]. unfold timedelta_days.
    repeat (f_equal; try lia).
Qed.
End page_facts.

(** ** Claims: the forecast page *)

Section prediksi_claims.
Context {G : Type} `{RandomGen G} `{DateParser} `{ArgSort} `{Arima} `{Sums}.

Lemma persiapan_lengths (raw : RawFrame) (g : G) :
  let d := (persiapan_data raw g).1 in
  length (Tanggal d) = len d ∧ (length (Nama_Produk d) ≤ len d)%nat.
Proof.
  destruct (persiapan_data_unfold raw g) as (g1 & g2 & g3 & _ & _ & _ & ->).
  unfold len. simpl. split.
  - apply length_iloc, sorted_labels_in_range.
  - destruct (raw_Nama_Produk raw); simpl.
    + apply length_iloc_le.
    + by rewrite length_fmap, length_seq.
Qed.

(** Every row of the prepared table has a date. *)
Lemma persiapan_row_date (raw : RawFrame) (g : G) (i : nat) :
  (i < len (persiapan_data raw g).1)%nat →
  ∃ t, Tanggal (persiapan_data raw g).1 !! i = Some (Some t).
Proof.
  intros Hi. destruct (persiapan_lengths raw g) as [Hlen _].
  destruct (Tanggal_ascending raw g) as (ts & Hts & _).
  rewrite <- Hlen, Hts, length_fmap in Hi.
  destruct (lookup_lt_is_Some_2 ts i Hi) as [t Ht].
  exists t. by rewrite Hts, list_lookup_fmap, Ht.
Qed.

(** The series of a product that occurs in the table has a date. *)
Lemma series_has_date (raw : RawFrame) (g : G) (p : string) :
  let d := (persiapan_data raw g).1 in
  Some p ∈ Nama_Produk d → ∃ t, Some t ∈ Tanggal (select_produk d (Some p)).
Proof.
  intros d [i Hi]%list_elem_of_lookup_1.
  destruct (persiapan_lengths raw g) as [_ Hle]. fold d in Hle.
  destruct (persiapan_row_date raw g i) as [t Ht].
  { apply lookup_lt_Some in Hi. fold d. lia. }
  exists t. unfold select_produk. simpl.
  apply (elem_of_iloc _ _ i); [|done].
  by apply mask_positions_spec, eq_mask_true.
Qed.

Lemma script_outcome (raw : RawFrame) (menu : Menu) (g : G) :
  (script raw menu g).1 =
  let s := {| data := (persiapan_data raw g).1; ui := persiapan_ui raw |} in
  footer (match menu with
          | Prediksi_Demand pick => prediksi_demand pick s
          | Insight_Otomatis => insight_otomatis s
          end).
Proof. unfold script. by rewrite bind_eq. Qed.

(** The dates selected for a product are exactly the dates of the rows of
    the table that carry the product. *)
Lemma select_produk_dates (d : Frame) (p : string) (x : option Z) :
  x ∈ Tanggal (select_produk d (Some p)) ↔
  ∃ i, Nama_Produk d !! i = Some (Some p) ∧ Tanggal d !! i = Some x.
Proof.
  unfold select_produk. simpl. unfold iloc. rewrite list_elem_of_omap.
  split.
  - intros (i & Hi & Hx). exists i. split; [|done].
    by apply eq_mask_true, mask_positions_spec.
  - intros (i & Hp & Hx). exists i. split; [|done].
    by apply mask_positions_spec, eq_mask_true.
Qed.

(** A product picked from the table whose fit succeeds gets its forecast. *)
Lemma forecast_of_pick (raw : RawFrame) (g : G) (pick : nat) (p : string)
    (fc : list prediction) :
  let d := (persiapan_data raw g).1 in
  let df_produk := select_produk d (Some p) in
  selectbox (unique (Nama_Produk d)) pick = Some p →
  ARIMA_fit_forecast (Penjualan_series df_produk) (1, 1, 1)%nat 7 = Ok fc →
  ∃ last fdf,
    Tanggal_max (Tanggal df_produk) = Some last ∧
    forecast_df df_produk = Ok fdf ∧ length fdf = 7%nat ∧ fdf.*2 = fc ∧
    fdf.*1 = [last + timedelta_days 1; last + timedelta_days 2;
              last + timedelta_days 3; last + timedelta_days 4;
              last + timedelta_days 5; last + timedelta_days 6;
              last + timedelta_days 7].
Proof.
  intros d df_produk Hpick Hfit.
  destruct (series_has_date raw g p) as [t Ht]; [by eapply selectbox_elem_of|].
  destruct (Tanggal_max_is_Some _ _ Ht) as [last Hlast].
  destruct (forecast_df_Ok df_produk fc last Hfit Hlast) as (fdf & ? & ? & ? & ?).
  by exists last, fdf.
Qed.

(** C1. For every product of the prepared table on whose units-sold series
    the ARIMA(1,1,1) fit succeeds, the forecast table has exactly 7 rows,
    and its dates are the 7 consecutive days that follow the latest date of
    that product's rows: [last] is the date of a row of the table that
    carries the product, and no row that carries the product has a later
    date. *)
Theorem C1_forecast_seven_following_days (raw : RawFrame) (g : G) (pick : nat)
    (p : string) (fc : list prediction) :
  let d := (persiapan_data raw g).1 in
  let df_produk := select_produk d (Some p) in
  selectbox (unique (Nama_Produk d)) pick = Some p →
  ARIMA_fit_forecast (Penjualan_series df_produk) (1, 1, 1)%nat 7 = Ok fc →
  ∃ last fdf,
    Some last ∈ Tanggal df_produk ∧
    (∀ t, Some t ∈ Tanggal df_produk → t ≤ last) ∧
    (∃ i, Nama_Produk d !! i = Some (Some p) ∧ Tanggal d !! i = Some (Some last)) ∧
    (∀ i t, Nama_Produk d !! i = Some (Some p) → Tanggal d !! i = Some (Some t) →
            t ≤ last) ∧
    forecast_df df_produk = Ok fdf ∧
    length fdf = 7%nat ∧
    fdf.*1 = [last + timedelta_days 1; last + timedelta_days 2;
              last + timedelta_days 3; last + timedelta_days 4;
              last + timedelta_days 5; last + timedelta_days 6;
              last + timedelta_days 7].
Proof.
  intros d df_produk Hpick Hfit.
  destruct (forecast_of_pick raw g pick p fc Hpick Hfit)
    as (last & fdf & Hlast & Hdf & Hlen & _ & Hdates).
  pose proof (Tanggal_max_elem _ _ Hlast) as Hin.
  assert (∀ t, Some t ∈ Tanggal df_produk → t ≤ last) as Hmax
    by (intros t; by apply Tanggal_max_ge).
  exists last, fdf. repeat split; try done.
  - by apply select_produk_dates.
  - intros i t Hp Ht. apply Hmax, select_produk_dates. eauto.
Qed.

(** C7. When fitting the model to the picked product's series raises, the
    exception is caught and shown as an error message; the run goes on to
    the footer and leaves the prepared table as it was.  The session stays
    usable: in a later run, a product whose fit succeeds gets its 7-row
    forecast. *)
Theorem C7_failed_fit_is_reported (raw : RawFrame) (g : G) (pick : nat) (e : string) :
  let d := (persiapan_data raw g).1 in
  let options := unique (Nama_Produk d) in
  ARIMA_fit_forecast (Penjualan_series (select_produk d (selectbox options pick)))
                     (1, 1, 1)%nat 7 = Raise e →
  (script raw (Prediksi_Demand pick) g).1 =
    Completed {| data := d;
                 ui := persiapan_ui raw ++ prediksi_header options
                       ++ [st_error [lit "Model gagal dijalankan: "; lit e]]
                       ++ footer_ui |} ∧
  ∀ (g' : G) (pick' : nat) (p' : string) (fc : list prediction),
    let d' := (persiapan_data raw g').1 in
    selectbox (unique (Nama_Produk d')) pick' = Some p' →
    ARIMA_fit_forecast (Penjualan_series (select_produk d' (Some p'))) (1, 1, 1)%nat 7 = Ok fc →
    ∃ s' fdf,
      (script raw (Prediksi_Demand pick') g').1 = Completed s' ∧
      data s' = d' ∧ st_dataframe fdf ∈ ui s' ∧ length fdf = 7%nat ∧ fdf.*2 = fc.
Proof.
  intros d options Hfit. split.
  - rewrite script_outcome. cbv zeta. unfold prediksi_demand. cbn [data].
    fold d. fold options. unfold forecast_df. rewrite Hfit.
    unfold footer, show. cbn [data ui]. by rewrite <- !app_assoc.
  - intros g' pick' p' fc d' Hpick Hok.
    destruct (forecast_of_pick raw g' pick' p' fc Hpick Hok)
      as (last & fdf & _ & Hdf & Hlen & Hfc & _).
    rewrite script_outcome. cbv zeta. unfold prediksi_demand. cbn [data].
    subst d'. rewrite Hpick, Hdf. unfold footer, show. cbn [data ui].
    eexists _, fdf. split; [done|]. cbn [data ui]. repeat split; try done.
    rewrite !elem_of_app. left. right. unfold prediksi_result.
    rewrite !elem_of_cons. auto.
Qed.
End prediksi_claims.

(** ** Groups and rankings *)

Lemma key_insert_not_nil (k : string) (ks : list string) : key_insert k ks ≠ [].
Proof.
  destruct ks as [|k' rest]; [done|]. simpl. by destruct (String.compare k k').
Qed.

Lemma key_fold_nil (ks acc : list string) :
  foldl (λ acc k, key_insert k acc) acc ks = [] ↔ acc = [] ∧ ks = [].
Proof.
  revert acc. induction ks as [|k ks IH]; intros acc; simpl;
    [by split; [|intros [? _]]|].
  rewrite IH. split; [|by intros [_ ?]].
  intros [Hnil _]. by apply key_insert_not_nil in Hnil.
Qed.

Lemma omap_id_nil {A} (c : list (option A)) :
  omap id c = [] ↔ Forall (λ k, k = None) c.
Proof.
  induction c as [|[x|] c IH]; csimpl.
  - by split; [constructor|].
  - split; [done|]. by inversion 1.
  - rewrite IH. split; [by constructor|]. by inversion 1.
Qed.

(** There is no group exactly when no row has a key. *)
Lemma group_keys_nil (keys : list (option string)) :
  group_keys keys = [] ↔ Forall (λ k, k = None) keys.
Proof.
  unfold group_keys. rewrite key_fold_nil, <- omap_id_nil. by split; [intros [_ ?]|].
Qed.

Lemma key_table_nil (f : string → Z) (keys : list (option string)) :
  key_table f keys = [] ↔ Forall (λ k, k = None) keys.
Proof.
  rewrite <- group_keys_nil. unfold key_table.
  by destruct (group_keys keys).
Qed.

Lemma insert_desc_not_nil (e : string * Z) (l : list (string * Z)) :
  insert_desc e l ≠ [].
Proof. destruct l as [|e' l]; [done|]. simpl. by destruct (e'.2 <? e.2). Qed.

Lemma ranking_nil (s acc : list (string * Z)) :
  foldl (λ acc e, insert_desc e acc) acc s = [] ↔ acc = [] ∧ s = [].
Proof.
  revert acc. induction s as [|e s IH]; intros acc; simpl;
    [by split; [|intros [? _]]|].
  rewrite IH. split; [|by intros [_ ?]].
  intros [Hnil _]. by apply insert_desc_not_nil in Hnil.
Qed.

Lemma nlargest_head_None (n : nat) (s : list (string * Z)) :
  head (nlargest (S n) s) = None ↔ s = [].
Proof.
  unfold nlargest.
  destruct (foldl _ [] s) as [|e l] eqn:Hfold; simpl.
  - apply ranking_nil in Hfold as [_ ->]. done.
  - split; [done|]. intros ->. done.
Qed.

(** The first of the ranking exists exactly when some row has a key. *)
Lemma ranking_first_is_Some (f : string → Z) (keys : list (option string)) :
  is_Some (fst <$> head (nlargest 1 (key_table f keys))) ↔ ∃ k, Some k ∈ keys.
Proof.
  rewrite fmap_is_Some, <- not_eq_None_Some, nlargest_head_None, key_table_nil.
  split.
  - intros Hnot. apply not_Forall_Exists in Hnot; [|apply _].
    apply Exists_exists in Hnot as ([k|] & Hin & Hk); [by exists k|].
    by destruct Hk.
  - intros [k Hk] Hall. rewrite Forall_forall in Hall. by specialize (Hall _ Hk).
Qed.

(** ** Claims: the weekly insight *)

Lemma frame_iloc_ok (positions : list nat) (d : Frame) :
  frame_ok d → Forall (λ i, (i < len d)%nat) positions →
  frame_ok (frame_iloc positions d).
Proof.
  intros (Ht & Hw & Hp & Hu & Hm) Hpos.
  assert (∀ A (c : list A), length c = len d →
            length (iloc positions c) = length (iloc positions (index d))) as Hcol.
  { intros A c Hc.
    rewrite !length_iloc; [done|eapply iloc_in_range; [|exact Hpos]; done..]. }
  unfold frame_ok. change (len (frame_iloc positions d))
    with (length (iloc positions (index d))).
  simpl. repeat split; by apply Hcol.
Qed.

Section insight_claims.
Context {G : Type} `{RandomGen G} `{DateParser} `{ArgSort} `{Arima} `{Sums}.

Lemma backfill_length {A} (raw : RawFrame) (c : option (list A))
    (gen : Rand G (list A)) (g : G) :
  raw_okb raw → col_okb (raw_len raw) c →
  (∀ g', length (gen g').1 = length (sorted_labels raw)) →
  length (backfill c (sorted_labels raw) gen g).1 = length (sorted_labels raw).
Proof.
  intros Hok Hc Hgen. destruct c as [l|]; simpl; [|apply Hgen].
  apply length_iloc, labels_in_column; [done|]. by eapply col_ok_length.
Qed.

Lemma persiapan_frame_ok (raw : RawFrame) (g : G) :
  raw_okb raw → frame_ok (persiapan_data raw g).1.
Proof.
  intros Hok. pose proof Hok as Hcols. unfold raw_okb in Hcols.
  rewrite !andb_True in Hcols. destruct Hcols as ((((_ & Hw) & Hp) & Hu) & Hm).
  destruct (persiapan_data_unfold raw g) as (g1 & g2 & g3 & _ & _ & _ & ->).
  unfold frame_ok, len. simpl. repeat split.
  - apply length_iloc, sorted_labels_in_range.
  - apply backfill_length; [done..|]. intros g'. apply length_draws.
  - apply backfill_length; [done..|]. intros g'. apply length_draws.
  - apply backfill_length; [done..|]. intros g'. apply length_draws.
  - apply backfill_length; [done..|]. intros g'. simpl.
    by rewrite length_fmap, length_seq.
Qed.

Lemma recent_data_ok (d : Frame) : frame_ok d → frame_ok (recent_data d).
Proof.
  intros Hd. apply frame_iloc_ok; [done|].
  destruct Hd as (Ht & _). rewrite <- Ht.
  eapply Forall_impl; [apply mask_positions_lt|].
  intros i Hi. unfold ge_mask in Hi. by rewrite length_fmap in Hi.
Qed.

(** The row that carries the latest date passes the cutoff. *)
Lemma recent_data_not_empty (raw : RawFrame) (g : G) :
  let d := (persiapan_data raw g).1 in
  (0 < len d)%nat → (0 < len (recent_data d))%nat.
Proof.
  intros d Hlen.
  destruct (persiapan_row_date raw g 0 Hlen) as [t0 Ht0]. fold d in Ht0.
  destruct (Tanggal_max_is_Some (Tanggal d) t0) as [m Hm];
    [by eapply list_elem_of_lookup_2|].
  destruct (list_elem_of_lookup_1 _ _ (Tanggal_max_elem _ _ Hm)) as [i Hi].
  destruct (persiapan_lengths raw g) as [Hlt _]. fold d in Hlt.
  assert (i < len d)%nat as Hid by (rewrite <- Hlt; by eapply lookup_lt_Some).
  destruct (lookup_lt_is_Some_2 (index d) i Hid) as [a Ha].
  assert (a ∈ index (recent_data d)) as Hin.
  { unfold recent_data, cutoff. rewrite Hm. simpl.
    apply (elem_of_iloc _ _ i); [|done].
    apply mask_positions_spec, ge_mask_true. exists m. split; [done|].
    unfold timedelta_days, ns_per_day. lia. }
  unfold len. destruct (index (recent_data d)); [by apply elem_of_nil in Hin|].
  simpl. lia.
Qed.

(** What the weekly page does on a non-empty prepared table: the filter
    (date at or after the latest date minus 7 days) keeps at least the row
    with the latest date, so the "no sales data in the last 7 days" warning
    is not shown.  A best seller is found exactly when some kept row has a
    product id, and a best region exactly when some kept row has a region;
    when both are, the page completes with the insight. *)
Lemma weekly_insight_outcome (raw : RawFrame) (g : G) :
  raw_okb raw →
  let d := (persiapan_data raw g).1 in
  let recent := recent_data d in
  (0 < len d)%nat →
  (0 < len recent)%nat ∧
  (no_recent_sales ∉ outcome_ui (script raw Insight_Otomatis g).1) ∧
  (is_Some (top_produk recent) ↔ ∃ p, Some p ∈ Nama_Produk recent) ∧
  (is_Some (wilayah_terbaik recent) ↔ ∃ w, Some w ∈ Wilayah recent) ∧
  (is_Some (top_produk recent) → is_Some (wilayah_terbaik recent) →
   ∃ s, (script raw Insight_Otomatis g).1 = Completed s ∧
        st_info [lit "Total penjualan minggu ini: **"; num (total_penjualan recent);
                 lit " unit**, wilayah terbaik: **"; label (wilayah_terbaik recent);
                 lit "**."] ∈ ui s).
Proof.
  intros Hok d recent Hlen.
  pose proof (recent_data_not_empty raw g Hlen) as Hrecent. fold d in Hrecent.
  fold recent in Hrecent.
  destruct (recent_data_ok d (persiapan_frame_ok raw g Hok))
    as (_ & Hw & _ & Hu & Hm). fold recent in Hw, Hu, Hm.
  assert ((0 <? len recent)%nat = true) as Hif by by apply Nat.ltb_lt.
  split; [done|]. split; [|split; [|split]].
  - rewrite script_outcome. cbv zeta. unfold insight_otomatis.
    cbn [data show]. fold d. fold recent. rewrite Hif.
    destruct (top_produk recent) as [top|]; [destruct (wilayah_terbaik recent) as [wil|]|];
      unfold footer, outcome_ui, show, footer_ui, persiapan_ui, no_recent_sales;
      cbn [data ui]; destruct (raw_Tanggal raw);
      rewrite ?elem_of_app, ?elem_of_cons, ?elem_of_nil; intuition discriminate.
  - apply ranking_first_is_Some.
  - apply ranking_first_is_Some.
  - intros [top Htop] [wil Hwil].
    rewrite script_outcome. cbv zeta. unfold insight_otomatis.
    cbn [data show]. fold d. fold recent. rewrite Hif, Htop, Hwil.
    eexists. split; [done|]. unfold show. cbn [data ui].
    rewrite !elem_of_app, !elem_of_cons. auto.
Qed.

(** C9 (code defect). The weekly filter of a non-empty prepared table is
    never empty, so the guard [len(recent_data) > 0] always passes; but the
    guard does not make the best seller defined.  When every row the filter
    keeps has a null product id, the group table is empty and
    [nlargest(1).index[0]] raises an [IndexError] that nothing catches: the
    run ends there, without the insight, the chart or the footer. *)
Theorem C9_null_product_ids_end_the_run (raw : RawFrame) (g : G) :
  let d := (persiapan_data raw g).1 in
  let recent := recent_data d in
  (0 < len d)%nat →
  Forall (λ p, p = None) (Nama_Produk recent) →
  (0 < len recent)%nat ∧
  top_produk recent = None ∧
  (script raw Insight_Otomatis g).1 =
    Uncaught {| data := d;
                ui := persiapan_ui raw ++ [st_title "🤖 Insight Otomatis Mingguan"] |}
             "IndexError: index 0 is out of bounds for axis 0 with size 0".
Proof.
  intros d recent Hlen Hnull.
  pose proof (recent_data_not_empty raw g Hlen) as Hrecent. fold d in Hrecent.
  fold recent in Hrecent.
  assert (top_produk recent = None) as Htop.
  { apply eq_None_not_Some. unfold top_produk, groupby_sum.
    rewrite ranking_first_is_Some. intros [p Hp].
    rewrite Forall_forall in Hnull. by specialize (Hnull _ Hp). }
  split; [done|]. split; [done|].
  assert ((0 <? len recent)%nat = true) as Hif by by apply Nat.ltb_lt.
  rewrite script_outcome. cbv zeta. unfold insight_otomatis.
  cbn [data show]. fold d. fold recent. by rewrite Hif, Htop.
Qed.
End insight_claims.

(** * The claims on concrete tables *)

#[local] Existing Instances lcg iso_dates numpy_sort naive int64_sums.

(** On the eighteen equal dates the validated indexer is NumPy's own. *)
Example numpy_sort_one_day :
  argsort (replicate 18 1709251200000000000) =
  Numpy.argsort (replicate 18 1709251200000000000) ∧
  Numpy.argsort (replicate 18 1709251200000000000) =
  [0; 15; 14; 13; 12; 11; 10; 9; 8; 7; 6; 5; 4; 3; 2; 1; 16; 17]%nat.
Proof. by vm_compute. Qed.

(** C3, counterexample.  Eighteen rows with the same date: the partition
    step of the quicksort exchanges equal keys, and source row 15 ends up
    before source row 1. *)
Lemma C3_counterexample :
  ¬ keeps_tie_order (persiapan_data (G:=N) raw_one_day 0%N).1.
Proof.
  intros Hkeep.
  specialize (Hkeep 1%nat 15%nat 15%nat 1%nat (Some 1709251200000000000)).
  assert (15 < 1)%nat; [|lia].
  apply Hkeep; [lia|by vm_compute..].
Qed.

(** C4, counterexample.  A table of three rows without a product column
    gets three labels, not five. *)
Lemma C4_counterexample :
  raw_Nama_Produk raw_dates_only = None ∧
  size (list_to_set (Nama_Produk (persiapan_data (G:=N) raw_dates_only 42%N).1)
        : gset (option string)) ≠ 5%nat.
Proof. split; [done|]. by vm_compute. Qed.

(** The insight page on a table whose only row has no product id. *)
Example insight_on_null_product :
  let d := (persiapan_data (G:=N) raw_no_label 0%N).1 in
  (0 < len d)%nat ∧ (0 < len (recent_data d))%nat ∧
  top_produk (recent_data d) = None ∧
  ∃ s, (script (G:=N) raw_no_label Insight_Otomatis 0%N).1 =
       Uncaught s "IndexError: index 0 is out of bounds for axis 0 with size 0".
Proof.
  cbv zeta. split; [vm_compute; lia|]. split; [vm_compute; lia|].
  split; [by vm_compute|]. eexists. by vm_compute.
Qed.

Lemma C1_witness :
  let d := (persiapan_data (G:=N) raw_sales 0%N).1 in
  let df_produk := select_produk d (Some "Beat"%string) in
  selectbox (unique (Nama_Produk d)) 1 = Some "Beat"%string ∧
  @ARIMA_fit_forecast naive (Penjualan_series df_produk) (1, 1, 1)%nat 7 = Ok (replicate 7 50) ∧
  ∃ last fdf,
    Some last ∈ Tanggal df_produk ∧
    (∀ t, Some t ∈ Tanggal df_produk → t ≤ last) ∧
    (∃ i, Nama_Produk d !! i = Some (Some "Beat"%string) ∧
          Tanggal d !! i = Some (Some last)) ∧
    (∀ i t, Nama_Produk d !! i = Some (Some "Beat"%string) →
            Tanggal d !! i = Some (Some t) → t ≤ last) ∧
    forecast_df df_produk = Ok fdf ∧
    length fdf = 7%nat ∧
    fdf.*1 = [last + timedelta_days 1; last + timedelta_days 2;
              last + timedelta_days 3; last + timedelta_days 4;
              last + timedelta_days 5; last + timedelta_days 6;
              last + timedelta_days 7].
Proof.
  cbv zeta. split; [vm_compute; reflexivity|]. split; [vm_compute; reflexivity|].
  apply (@C1_forecast_seven_following_days N lcg iso_dates numpy_sort naive
           raw_sales 0%N 1 "Beat" (replicate 7 50));
    vm_compute; reflexivity.
Defined.

Lemma C4_witness :
  raw_Nama_Produk raw_units_only = None ∧
  let d := (persiapan_data (G:=N) raw_units_only 7%N).1 in
  length (Nama_Produk d) = len d ∧
  (∀ i, (i < len d)%nat →
        Nama_Produk d !! i = Some (Some ("Motor-" +:+ pretty (i mod 5 + 1)%nat)%string)) ∧
  size (list_to_set (Nama_Produk d) : gset (option string)) = (len d `min` 5)%nat.
Proof.
  split; [reflexivity|].
  apply (C4_labels_cycle_through_five raw_units_only 7%N). reflexivity.
Defined.

Lemma C5_witness :
  raw_Tanggal raw_units_only = None ∧
  let d := (persiapan_data (G:=N) raw_units_only 7%N).1 in
  index d = seq 0 30 ∧
  length (Tanggal d) = 30%nat ∧
  ∀ i : nat, (i < 30)%nat →
    Tanggal d !! i = Some (Some (timestamp_ymd 2023 1 1 + timedelta_days (Z.of_nat i))).
Proof.
  split; [reflexivity|].
  apply (C5_dates_from_epoch raw_units_only 7%N). reflexivity.
Defined.

Lemma C6_witness :
  raw_okb raw_sales ∧
  let d := (persiapan_data (G:=N) raw_sales 0%N).1 in
  index d !! 4%nat = Some 2%nat ∧
  (∀ c, raw_Wilayah raw_sales = Some c → Wilayah d !! 4%nat = c !! 2%nat) ∧
  (∀ c, raw_Promosi raw_sales = Some c → Promosi d !! 4%nat = c !! 2%nat) ∧
  (∀ c, raw_Penjualan raw_sales = Some c → Penjualan d !! 4%nat = c !! 2%nat) ∧
  (∀ c, raw_Nama_Produk raw_sales = Some c → Nama_Produk d !! 4%nat = c !! 2%nat).
Proof.
  split; [vm_compute; exact I|]. cbv zeta. split; [vm_compute; reflexivity|].
  apply (C6_present_columns_unchanged raw_sales 0%N 4 2);
    [vm_compute; exact I | vm_compute; reflexivity].
Defined.

Lemma C7_witness :
  let d := (persiapan_data (G:=N) raw_sales 0%N).1 in
  let options := unique (Nama_Produk d) in
  @ARIMA_fit_forecast naive (Penjualan_series (select_produk d (selectbox options 0)))
                     (1, 1, 1)%nat 7 = Raise "too few observations" ∧
  (script (G:=N) raw_sales (Prediksi_Demand 0) 0%N).1 =
    Completed {| data := d;
                 ui := persiapan_ui raw_sales ++ prediksi_header options
                       ++ [st_error [lit "Model gagal dijalankan: ";
                                     lit "too few observations"]]
                       ++ footer_ui |} ∧
  ∀ (g' : N) (pick' : nat) (p' : string) (fc : list Z),
    let d' := (persiapan_data (G:=N) raw_sales g').1 in
    selectbox (unique (Nama_Produk d')) pick' = Some p' →
    @ARIMA_fit_forecast naive (Penjualan_series (select_produk d' (Some p'))) (1, 1, 1)%nat 7 = Ok fc →
    ∃ s' fdf,
      (script (G:=N) raw_sales (Prediksi_Demand pick') g').1 = Completed s' ∧
      data s' = d' ∧ st_dataframe fdf ∈ ui s' ∧ length fdf = 7%nat ∧ fdf.*2 = fc.
Proof.
  cbv zeta. split; [vm_compute; reflexivity|].
  apply (@C7_failed_fit_is_reported N lcg iso_dates numpy_sort naive int64_sums
           raw_sales 0%N 0 "too few observations").
  vm_compute; reflexivity.
Defined.

Lemma C8_witness :
  raw_Penjualan raw_dates_only = None ∧
  Forall (λ x, ∃ z : Z, x = Some z ∧ 20 ≤ z ≤ 200)
         (Penjualan (persiapan_data (G:=N) raw_dates_only 42%N).1).
Proof.
  split; [reflexivity|].
  apply (C8_synthesized_units_in_range raw_dates_only 42%N). reflexivity.
Defined.

Lemma C9_witness :
  let d := (persiapan_data (G:=N) raw_no_label 0%N).1 in
  let recent := recent_data d in
  (0 < len d)%nat ∧
  Forall (λ p, p = None) (Nama_Produk recent) ∧
  (0 < len recent)%nat ∧
  top_produk recent = None ∧
  (script (G:=N) raw_no_label Insight_Otomatis 0%N).1 =
    Uncaught {| data := d;
                ui := persiapan_ui raw_no_label
                      ++ [st_title "🤖 Insight Otomatis Mingguan"] |}
             "IndexError: index 0 is out of bounds for axis 0 with size 0".
Proof.
  cbv zeta. split; [vm_compute; lia|].
  split; [vm_compute; by repeat constructor|].
  apply (@C9_null_product_ids_end_the_run N lcg iso_dates numpy_sort naive int64_sums
           raw_no_label 0%N);
    [vm_compute; lia | vm_compute; by repeat constructor].
Defined.

Lemma C10_witness :
  is_Some (raw_Tanggal raw_sales) ∧ is_Some (raw_Wilayah raw_sales) ∧
  is_Some (raw_Promosi raw_sales) ∧ is_Some (raw_Penjualan raw_sales) ∧
  is_Some (raw_Nama_Produk raw_sales) ∧
  (persiapan_data (G:=N) raw_sales 0%N).2 = 0%N ∧
  (persiapan_data (G:=N) raw_sales 0%N).1 = (persiapan_data (G:=N) raw_sales 42%N).1.
Proof.
  assert (is_Some (raw_Tanggal raw_sales)) as Ht by (vm_compute; eauto).
  assert (is_Some (raw_Wilayah raw_sales)) as Hw by (vm_compute; eauto).
  assert (is_Some (raw_Promosi raw_sales)) as Hp by (vm_compute; eauto).
  assert (is_Some (raw_Penjualan raw_sales)) as Hu by (vm_compute; eauto).
  assert (is_Some (raw_Nama_Produk raw_sales)) as Hm by (vm_compute; eauto).
  repeat (split; [assumption|]).
  exact (C10_all_columns_deterministic raw_sales 0%N 42%N Ht Hw Hp Hu Hm).
Defined.

(** * Further properties of the script *)

(** ** Data preparation (lines 73-93) *)

Lemma notna_from_ge (k : nat) (c : list (option Z)) :
  Forall (λ i, (k ≤ i)%nat) (notna_from k c).*1.
Proof.
  revert k. induction c as [|[t|] c IH]; intros k; simpl; [constructor|..].
  - constructor; [done|]. eapply Forall_impl; [apply (IH (S k))|]. intros; simpl in *; lia.
  - eapply Forall_impl; [apply (IH (S k))|]. intros; simpl in *; lia.
Qed.

Lemma notna_from_NoDup (k : nat) (c : list (option Z)) : NoDup (notna_from k c).*1.
Proof.
  revert k. induction c as [|[t|] c IH]; intros k; simpl; [constructor|..|apply IH].
  constructor; [|apply IH].
  intros Hin. pose proof (notna_from_ge (S k) c) as Hge.
  rewrite Forall_forall in Hge. specialize (Hge _ Hin). lia.
Qed.

Section random_facts.
Context {G : Type} `{RandomGen G}.

Lemma random_choice_elem {A} (dflt : A) (l : list A) (g : G) :
  l ≠ [] → (random_choice dflt l g).1 ∈ l.
Proof.
  intros Hl. unfold random_choice.
  pose proof (randbelow_lt (length l) g) as Hlt.
  destruct (randbelow (length l) g) as [i g']. simpl in *.
  assert (i < length l)%nat as Hi by (apply Hlt; destruct l; [done|simpl; lia]).
  destruct (lookup_lt_is_Some_2 l i Hi) as [x Hx]. rewrite Hx. simpl.
  by eapply list_elem_of_lookup_2.
Qed.
End random_facts.

Section persiapan_extras.
Context {G : Type} `{RandomGen G} `{DateParser} `{ArgSort}.

Lemma index_NoDup (raw : RawFrame) (g : G) : NoDup (index (persiapan_data raw g).1).
Proof. rewrite persiapan_index, sorted_labels_perm. apply notna_from_NoDup. Qed.

Lemma index_elem_of (raw : RawFrame) (g : G) (a : nat) :
  a ∈ index (persiapan_data raw g).1 ↔ ∃ t, tanggal_parsed raw !! a = Some (Some t).
Proof.
  rewrite persiapan_index, sorted_labels_perm, list_elem_of_fmap. split.
  - intros ([a' t] & -> & Hin). exists t. by apply notna_spec.
  - intros [t Ht]. exists (a, t). split; [done|]. by apply notna_spec.
Qed.

(** X1. The prepared table is rectangular: each of its five columns has one
    cell per row of its index. *)
Theorem X1_prepared_table_rectangular (raw : RawFrame) (g : G) :
  raw_okb raw →
  let d := (persiapan_data raw g).1 in
  length (Tanggal d) = len d ∧ length (Wilayah d) = len d ∧
  length (Promosi d) = len d ∧ length (Penjualan d) = len d ∧
  length (Nama_Produk d) = len d.
Proof. intros Hok. by apply persiapan_frame_ok. Qed.

(** X2. A source row is in the prepared table exactly when its date parses,
    and then it is there once; rows whose date does not parse are dropped
    without any message. *)
Theorem X2_rows_kept_iff_date_parses (raw : RawFrame) (g : G) (a : nat) :
  let d := (persiapan_data raw g).1 in
  NoDup (index d) ∧
  (a ∈ index d ↔ ∃ t, tanggal_parsed raw !! a = Some (Some t)).
Proof.
  intros d. split; [apply index_NoDup | apply index_elem_of].
Qed.

(** X3. The date shown for a row is the parsed date of the source row it
    came from: sorting moves whole rows. *)
Theorem X3_row_keeps_its_date (raw : RawFrame) (g : G) (i a : nat) :
  let d := (persiapan_data raw g).1 in
  index d !! i = Some a →
  Tanggal d !! i = tanggal_parsed raw !! a ∧
  ∃ t, tanggal_parsed raw !! a = Some (Some t).
Proof.
  intros d Hi. split; [by apply persiapan_Tanggal_lookup|].
  apply (index_elem_of raw g). by eapply list_elem_of_lookup_2.
Qed.

Lemma generated_regions (raw : RawFrame) (g : G) :
  raw_Wilayah raw = None →
  Forall (λ x, ∃ w : string, x = Some w ∧ w ∈ wilayah_list)
         (Wilayah (persiapan_data raw g).1).
Proof.
  intros Hnone.
  destruct (persiapan_data_unfold raw g) as (g1 & g2 & g3 & _ & _ & _ & ->). simpl.
  rewrite Hnone. simpl. apply draws_Forall. intros g'.
  rewrite bind_eq. simpl. eexists. split; [done|].
  by apply random_choice_elem.
Qed.

(** X4. When the region column is absent, every generated region is one of
    the five cities of [wilayah_list], and no cell is left null. *)
Theorem X4_generated_regions (raw : RawFrame) (g : G) :
  raw_Wilayah raw = None →
  Forall (λ x, ∃ w : string, x = Some w ∧ w ∈ wilayah_list)
         (Wilayah (persiapan_data raw g).1).
Proof. apply generated_regions. Qed.

(** X5. When the promotion column is absent, every generated flag is 0 or
    1, and no cell is left null. *)
Theorem X5_generated_promo_flags (raw : RawFrame) (g : G) :
  raw_Promosi raw = None →
  Forall (λ x, x = Some 0 ∨ x = Some 1) (Promosi (persiapan_data raw g).1).
Proof.
  intros Hnone.
  destruct (persiapan_data_unfold raw g) as (g1 & g2 & g3 & _ & _ & _ & ->). simpl.
  rewrite Hnone. simpl. apply draws_Forall. intros g'.
  rewrite bind_eq. simpl.
  pose proof (random_choice_elem 0 [0; 1] g' ltac:(done)) as Hin.
  rewrite !elem_of_cons, elem_of_nil in Hin.
  destruct Hin as [->|[->|[]]]; auto.
Qed.

(** X6. Only region, promotion flag and units sold are drawn at random:
    when these three columns are present the generator is left as it was and
    the prepared table does not depend on it, even if the date and product
    columns are missing and get filled in. *)
Theorem X6_random_only_for_three_columns (raw : RawFrame) (g g' : G) :
  is_Some (raw_Wilayah raw) → is_Some (raw_Promosi raw) →
  is_Some (raw_Penjualan raw) →
  (persiapan_data raw g).2 = g ∧
  (persiapan_data raw g).1 = (persiapan_data raw g').1.
Proof.
  intros [w Hw] [p Hp] [u Hu].
  unfold persiapan_data. rewrite !bind_eq, Hw, Hp, Hu.
  by destruct (raw_Nama_Produk raw).
Qed.
End persiapan_extras.

(** ** Row selection keeps the order of the rows *)

Lemma mask_from_ge (k : nat) (mask : list bool) :
  Forall (λ i, (k ≤ i)%nat) (mask_from k mask).
Proof.
  apply Forall_forall. intros i [Hi _]%mask_from_spec. done.
Qed.

Lemma iloc_beyond {A} (positions : list nat) (c : list A) :
  Forall (λ i, (length c ≤ i)%nat) positions → iloc positions c = [].
Proof.
  induction 1 as [|i positions Hi _ IH]; [done|].
  by rewrite iloc_cons, lookup_ge_None_2.
Qed.

Lemma iloc_mask_from_sublist {A} (pre c : list A) (mask : list bool) :
  iloc (mask_from (length pre) mask) (pre ++ c) `sublist_of` c.
Proof.
  revert pre mask. induction c as [|x c IH]; intros pre mask.
  - rewrite iloc_beyond; [done|]. rewrite app_nil_r. apply mask_from_ge.
  - destruct mask as [|b mask]; [apply sublist_nil_l|]. simpl.
    specialize (IH (pre ++ [x]) mask).
    rewrite length_app, <- app_assoc in IH. simpl in IH. rewrite Nat.add_1_r in IH.
    destruct b.
    + rewrite iloc_cons, list_lookup_middle by done. by constructor.
    + by constructor.
Qed.

Lemma iloc_mask_sublist {A} (c : list A) (mask : list bool) :
  iloc (mask_positions mask) c `sublist_of` c.
Proof. apply (iloc_mask_from_sublist [] c mask). Qed.

Lemma sublist_Forall_impl {A} (P : A → Prop) (l k : list A) :
  l `sublist_of` k → Forall P k → Forall P l.
Proof.
  induction 1 as [|x l k _ IH|x l k _ IH]; intros Hk; [done|..].
  - inversion_clear Hk. constructor; auto.
  - inversion_clear Hk. auto.
Qed.

Lemma sublist_StronglySorted_le (l k : list Z) :
  l `sublist_of` k → StronglySorted Z.le k → StronglySorted Z.le l.
Proof.
  induction 1 as [|x l k Hsub IH|x l k _ IH]; intros Hk; [done|..].
  - inversion_clear Hk. constructor; [auto|]. by eapply sublist_Forall_impl.
  - inversion_clear Hk. auto.
Qed.

Lemma eq_mask_None (c : list (option string)) : mask_positions (eq_mask c None) = [].
Proof.
  unfold mask_positions. generalize 0%nat.
  induction c as [|x c IH]; intros k; [done|]. simpl. by destruct x.
Qed.

(** ** The forecast page (lines 159-192) *)

Section prediksi_extras.
Context {G : Type} `{RandomGen G} `{DateParser} `{ArgSort} `{Arima} `{Sums}.

(** X7. The rows handed to the model for a product are rows of the prepared
    table in the table's order: every one carries that product, the units
    series is a subsequence of the units column, and the dates ascend. *)
Theorem X7_product_series_in_date_order (raw : RawFrame) (g : G) (p : string) :
  let d := (persiapan_data raw g).1 in
  let df_produk := select_produk d (Some p) in
  Forall (λ x, x = Some p) (Nama_Produk df_produk) ∧
  index df_produk `sublist_of` index d ∧
  Penjualan df_produk `sublist_of` Penjualan d ∧
  ∃ ts, Tanggal df_produk = Some <$> ts ∧ StronglySorted Z.le ts.
Proof.
  intros d df_produk. unfold df_produk, select_produk. simpl.
  split; [|split; [|split]]; try apply iloc_mask_sublist.
  - apply Forall_forall. intros x Hx. unfold iloc in Hx.
    apply list_elem_of_omap in Hx as (i & Hi & Hx).
    apply mask_positions_spec, eq_mask_true in Hi. congruence.
  - destruct (Tanggal_ascending raw g) as (ts & Hts & Hsorted). fold d in Hts.
    exists (iloc (mask_positions (eq_mask (Nama_Produk d) (Some p))) ts).
    split; [by rewrite Hts, iloc_fmap|].
    eapply sublist_StronglySorted_le; [apply iloc_mask_sublist|done].
Qed.

(** X8. When the pick selects no product (the select box is empty, or the
    option picked is the null label), the series is empty and the page shows
    the error message, whatever the model does with an empty series; no
    forecast is shown and the run reaches the footer. *)
Theorem X8_no_product_no_forecast (raw : RawFrame) (g : G) (pick : nat) :
  let d := (persiapan_data raw g).1 in
  let options := unique (Nama_Produk d) in
  selectbox options pick = None →
  len (select_produk d None) = 0%nat ∧
  ∃ e, (script raw (Prediksi_Demand pick) g).1 =
       Completed {| data := d;
                    ui := persiapan_ui raw ++ prediksi_header options
                          ++ [st_error [lit "Model gagal dijalankan: "; lit e]]
                          ++ footer_ui |}.
Proof.
  intros d options Hpick.
  assert (∀ A (c : list A), iloc (mask_positions (eq_mask (Nama_Produk d) None)) c = [])
    as Hempty by (intros; by rewrite eq_mask_None).
  split; [unfold len, select_produk; simpl; by rewrite Hempty|].
  assert (∃ e, forecast_df (select_produk d None) = Raise e) as [e He].
  { unfold forecast_df, select_produk. simpl. rewrite !Hempty. simpl.
    destruct (ARIMA_fit_forecast _ _ _); eauto. }
  exists e. rewrite script_outcome. cbv zeta. unfold prediksi_demand. cbn [data].
  fold d. fold options. rewrite Hpick, He.
  unfold footer, show. cbn [data ui]. by rewrite <- !app_assoc.
Qed.
End prediksi_extras.

(** ** The weekly insight (lines 220-239) *)

Section insight_extras.
Context {G : Type} `{RandomGen G} `{DateParser} `{ArgSort} `{Arima} `{Sums}.

(** X9. On an empty prepared table (no row, or no row whose date parses)
    the weekly page shows the "no sales data in the last 7 days" warning and
    the run reaches the footer. *)
Theorem X9_empty_table_shows_warning (raw : RawFrame) (g : G) :
  let d := (persiapan_data raw g).1 in
  len d = 0%nat →
  (script raw Insight_Otomatis g).1 =
    Completed {| data := d;
                 ui := persiapan_ui raw
                       ++ [st_title "🤖 Insight Otomatis Mingguan"; no_recent_sales]
                       ++ footer_ui |}.
Proof.
  intros d Hlen.
  assert (len (recent_data d) = 0%nat) as Hrecent.
  { unfold len, recent_data. simpl. rewrite iloc_beyond; [done|].
    unfold len in Hlen. rewrite Hlen. apply Forall_forall. intros; lia. }
  rewrite script_outcome. cbv zeta. unfold insight_otomatis. cbn [data show].
  fold d. rewrite Hrecent. simpl. unfold show. simpl. by rewrite <- !app_assoc.
Qed.

(** X10. The weekly filter keeps exactly the rows dated from 7 days before
    the latest date up to the latest date, both ends included, in the order
    of the table. *)
Theorem X10_recent_rows_are_the_last_week (raw : RawFrame) (g : G) (m : Z) :
  let d := (persiapan_data raw g).1 in
  Tanggal_max (Tanggal d) = Some m →
  index (recent_data d) `sublist_of` index d ∧
  (∀ t, Some t ∈ Tanggal (recent_data d) → m - timedelta_days 7 ≤ t ≤ m) ∧
  (∀ i a t, index d !! i = Some a → Tanggal d !! i = Some (Some t) →
            (a ∈ index (recent_data d) ↔ m - timedelta_days 7 ≤ t)).
Proof.
  intros d Hm. unfold recent_data, cutoff. rewrite Hm. simpl.
  split; [apply iloc_mask_sublist|]. split.
  - intros t Ht. unfold iloc in Ht.
    apply list_elem_of_omap in Ht as (i & Hi & Ht).
    apply mask_positions_spec, ge_mask_true in Hi as (t' & Ht' & Hle).
    assert (t' = t) as -> by congruence. split; [done|].
    eapply Tanggal_max_ge; [done|]. by eapply list_elem_of_lookup_2.
  - intros i a t Hi Ht. unfold iloc. rewrite list_elem_of_omap. split.
    + intros (j & Hj & Hja).
      assert (j = i) as ->.
      { eapply NoDup_lookup; [apply (index_NoDup raw g)|done..]. }
      apply mask_positions_spec, ge_mask_true in Hj as (t' & Ht' & Hle).
      congruence.
    + intros Hle. exists i. split; [|done].
      apply mask_positions_spec, ge_mask_true. eauto.
Qed.
End insight_extras.

(** ** Group totals and rankings (lines 120, 128, 226-233) *)

Lemma ascii_compare_trans (a b c : ascii) :
  Ascii.compare a b = Lt → Ascii.compare b c = Lt → Ascii.compare a c = Lt.
Proof.
  unfold Ascii.compare. rewrite !N.compare_lt_iff. lia.
Qed.

Lemma string_lt_trans (a b c : string) : string_lt a b → string_lt b c → string_lt a c.
Proof.
  unfold string_lt. revert b c. induction a as [|x a IH]; intros [|y b] [|z c]; simpl; try done.
  destruct (Ascii.compare x y) eqn:Hxy; try done.
  - apply Ascii.compare_eq_iff in Hxy as ->.
    destruct (Ascii.compare y z) eqn:Hyz; try done. apply IH.
  - intros _. destruct (Ascii.compare y z) eqn:Hyz; try done.
    + apply Ascii.compare_eq_iff in Hyz as <-. by rewrite Hxy.
    + by rewrite (ascii_compare_trans x y z).
Qed.

Lemma string_lt_irrefl (a : string) : ¬ string_lt a a.
Proof.
  unfold string_lt. intros Hlt. pose proof (String.compare_antisym a a) as Hanti.
  rewrite Hlt in Hanti. done.
Qed.

Lemma string_compare_Gt (a b : string) : String.compare a b = Gt → string_lt b a.
Proof.
  unfold string_lt. intros Hgt. rewrite String.compare_antisym, Hgt. done.
Qed.

Global Instance string_lt_transitive : Transitive string_lt.
Proof. intros a b c. apply string_lt_trans. Qed.

Lemma StronglySorted_lookup_lt {A} (R : relation A) (l : list A) (i j : nat) (x y : A) :
  StronglySorted R l → (i < j)%nat → l !! i = Some x → l !! j = Some y → R x y.
Proof.
  intros Hs. revert i j. induction Hs as [|z l _ IH Hz]; intros i j Hij Hi Hj; [done|].
  destruct j as [|j]; [lia|]. destruct i as [|i]; simpl in *.
  - simplify_eq. rewrite Forall_lookup in Hz. eauto.
  - apply (IH i j); [lia|done..].
Qed.

Lemma string_sorted_NoDup (ks : list string) : StronglySorted string_lt ks → NoDup ks.
Proof.
  induction 1 as [|k ks _ IH Hk]; constructor; [|done].
  intros Hin. rewrite Forall_forall in Hk. by apply (string_lt_irrefl k), Hk.
Qed.

(** *** The group keys *)

Lemma key_insert_elem (k : string) (ks : list string) (k' : string) :
  k' ∈ key_insert k ks ↔ k' = k ∨ k' ∈ ks.
Proof.
  induction ks as [|k0 rest IH]; simpl.
  - rewrite list_elem_of_singleton, elem_of_nil. tauto.
  - destruct (String.compare k k0) eqn:Hc; rewrite ?elem_of_cons, ?IH.
    + apply String.compare_eq_iff in Hc as ->. tauto.
    + tauto.
    + tauto.
Qed.

Lemma key_insert_sorted (k : string) (ks : list string) :
  StronglySorted string_lt ks → StronglySorted string_lt (key_insert k ks).
Proof.
  induction ks as [|k0 rest IH]; simpl; intros Hs.
  - repeat constructor.
  - inversion_clear Hs as [|? ? Hrest Hk0].
    destruct (String.compare k k0) eqn:Hc.
    + by constructor.
    + constructor; [by constructor|]. constructor; [done|].
      eapply Forall_impl; [exact Hk0|]. intros k' Hk'. by etrans.
    + constructor; [auto|]. apply Forall_forall. intros k' Hk'.
      apply key_insert_elem in Hk' as [->|Hk'].
      * by apply string_compare_Gt.
      * rewrite Forall_forall in Hk0. auto.
Qed.

Lemma key_fold_sorted (ks acc : list string) :
  StronglySorted string_lt acc →
  StronglySorted string_lt (foldl (λ acc k, key_insert k acc) acc ks) ∧
  ∀ k, k ∈ foldl (λ acc k, key_insert k acc) acc ks ↔ k ∈ acc ∨ k ∈ ks.
Proof.
  revert acc. induction ks as [|k0 ks IH]; intros acc Hs; simpl.
  - split; [done|]. intros k. rewrite elem_of_nil. tauto.
  - destruct (IH (key_insert k0 acc) (key_insert_sorted _ _ Hs)) as [Hsorted Hin].
    split; [done|]. intros k. rewrite Hin, key_insert_elem, elem_of_cons. tauto.
Qed.

Lemma group_keys_sorted (keys : list (option string)) :
  StronglySorted string_lt (group_keys keys).
Proof. apply key_fold_sorted. constructor. Qed.

Lemma group_keys_elem (keys : list (option string)) (k : string) :
  k ∈ group_keys keys ↔ Some k ∈ keys.
Proof.
  unfold group_keys.
  rewrite (proj2 (key_fold_sorted (omap id keys) [] (SSorted_nil _))).
  rewrite elem_of_nil, list_elem_of_omap. split.
  - intros [[]|(x & Hx & Hk)]. simpl in Hk. by subst.
  - intros Hk. right. by exists (Some k).
Qed.

Lemma group_keys_NoDup (keys : list (option string)) : NoDup (group_keys keys).
Proof. apply string_sorted_NoDup, group_keys_sorted. Qed.

Lemma group_keys_length (keys : list (option string)) :
  length (group_keys keys) = size (list_to_set (omap id keys) : gset string).
Proof.
  rewrite <- (size_list_to_set (C:=gset string)) by apply group_keys_NoDup.
  f_equal. apply set_eq. intros k.
  rewrite !elem_of_list_to_set, group_keys_elem, list_elem_of_omap. split.
  - intros Hk. by exists (Some k).
  - intros (x & Hx & Hk). simpl in Hk. by subst.
Qed.

Lemma key_table_keys (f : string → Z) (keys : list (option string)) :
  (key_table f keys).*1 = group_keys keys.
Proof.
  unfold key_table. induction (group_keys keys) as [|k ks IH]; [done|].
  csimpl. by f_equal.
Qed.

(** *** Sums within the exact range *)

Lemma abs_total_sublist (c c' : list (option Z)) :
  c `sublist_of` c' → abs_total c ≤ abs_total c'.
Proof. unfold abs_total. induction 1; simpl; lia. Qed.

Lemma masked_sum_from (p : string) (pre : list (option Z)) (keys : list (option string))
    (vals : list (option Z)) :
  length keys = length vals →
  exact_sum (iloc (mask_from (length pre) (eq_mask keys (Some p))) (pre ++ vals)) =
  key_total p (zip keys vals).
Proof.
  revert pre vals. induction keys as [|k keys IH]; intros pre [|v vals] Hlen; try done.
  simpl in Hlen. injection Hlen as Hlen.
  specialize (IH (pre ++ [v]) vals Hlen).
  rewrite length_app, <- app_assoc in IH. simpl in IH. rewrite Nat.add_1_r in IH.
  simpl. destruct k as [k|]; simpl.
  - case_bool_decide as Hk.
    + subst k. rewrite decide_True by done.
      rewrite iloc_cons, list_lookup_middle by done. simpl. by rewrite IH.
    + rewrite decide_False by congruence. done.
  - done.
Qed.

Lemma masked_sum (p : string) (keys : list (option string)) (vals : list (option Z)) :
  length keys = length vals →
  exact_sum (iloc (mask_positions (eq_mask keys (Some p))) vals) =
  key_total p (zip keys vals).
Proof. apply (masked_sum_from p []). Qed.

Section sum_facts.
Context `{Sums}.

(** Within the range the sum of a product's rows, taken on the rows
    selected or on the group, is the sum of their units. *)
Lemma Series_sum_key_total (k : string) (keys : list (option string))
    (vals : list (option Z)) :
  length keys = length vals → abs_total vals ≤ 2 ^ 53 →
  Series_sum (iloc (mask_positions (eq_mask keys (Some k))) vals) =
  key_total k (zip keys vals).
Proof.
  intros Hlen Hb. rewrite Series_sum_exact; [by apply masked_sum|].
  etrans; [apply abs_total_sublist, iloc_mask_sublist|done].
Qed.

Lemma group_sum_key_total (k : string) (keys : list (option string))
    (vals : list (option Z)) :
  length keys = length vals → abs_total vals ≤ 2 ^ 53 →
  group_sum (group_values k keys vals) = key_total k (zip keys vals).
Proof.
  intros Hlen Hb. unfold group_values. rewrite group_sum_exact; [by apply masked_sum|].
  etrans; [apply abs_total_sublist, iloc_mask_sublist|done].
Qed.

(** *** The whole group table *)

Lemma group_table_keys (keys : list (option string)) (vals : list (option Z)) :
  let groups := groupby_sum keys vals in
  StronglySorted string_lt groups.*1 ∧
  (∀ k, k ∈ groups.*1 ↔ Some k ∈ keys) ∧
  length groups = size (list_to_set (omap id keys) : gset string).
Proof.
  intros groups. unfold groups, groupby_sum.
  rewrite <- (length_fmap fst), key_table_keys.
  split; [apply group_keys_sorted|]. split; [apply group_keys_elem|].
  apply group_keys_length.
Qed.

Lemma group_table_entries (keys : list (option string)) (vals : list (option Z)) :
  length keys = length vals → abs_total vals ≤ 2 ^ 53 →
  ∀ k s, (k, s) ∈ groupby_sum keys vals ↔
         Some k ∈ keys ∧ s = key_total k (zip keys vals).
Proof.
  intros Hlen Hb k s. unfold groupby_sum, key_table. rewrite list_elem_of_fmap. split.
  - intros (k' & [= -> ->] & Hin).
    split; [by apply group_keys_elem|]. by apply group_sum_key_total.
  - intros [Hk ->]. exists k. split; [|by apply group_keys_elem].
    f_equal. symmetry. by apply group_sum_key_total.
Qed.

(** X11. A group table has one entry per distinct non-null key, in
    ascending key order; rows without a key are in no group.  As long as the
    absolute values of the units add up to at most 2^53, where the sums of
    pandas are exact, the entry of a key is the sum of the units of the rows
    with that key, null units counting as 0. *)
Theorem X11_group_table (keys : list (option string)) (vals : list (option Z)) :
  length keys = length vals →
  let groups := groupby_sum keys vals in
  StronglySorted string_lt groups.*1 ∧
  (∀ k, k ∈ groups.*1 ↔ Some k ∈ keys) ∧
  length groups = size (list_to_set (omap id keys) : gset string) ∧
  (abs_total vals ≤ 2 ^ 53 →
   ∀ k s, (k, s) ∈ groups ↔ Some k ∈ keys ∧ s = key_total k (zip keys vals)).
Proof.
  intros Hlen groups.
  destruct (group_table_keys keys vals) as (Hsorted & Hkeys & Hlength).
  split; [done|]. split; [done|]. split; [done|].
  intros Hb. by apply group_table_entries.
Qed.

Lemma key_total_cons (k : string) (r : option string * option Z)
    (rows : list (option string * option Z)) :
  key_total k (r :: rows) =
  key_total k rows + (if decide (r.1 = Some k) then default 0 r.2 else 0).
Proof. unfold key_total. simpl. case_decide; lia. Qed.

Lemma key_totals_cons (l : list string) (r : option string * option Z)
    (rows : list (option string * option Z)) :
  foldr Z.add 0 ((λ k, key_total k (r :: rows)) <$> l) =
  foldr Z.add 0 ((λ k, key_total k rows) <$> l) +
  foldr Z.add 0 ((λ k, if decide (r.1 = Some k) then default 0 r.2 else 0) <$> l).
Proof.
  induction l as [|k l IH]; [done|].
  rewrite !fmap_cons. cbn [foldr]. rewrite IH, key_total_cons. lia.
Qed.

Lemma indicator_sum (l : list string) (o : option string) (x : Z) :
  NoDup l →
  foldr Z.add 0 ((λ k, if decide (o = Some k) then x else 0) <$> l) =
  match o with
  | Some k => if decide (k ∈ l) then x else 0
  | None => 0
  end.
Proof.
  induction 1 as [|k l Hk _ IH]; [by destruct o|].
  rewrite fmap_cons. cbn [foldr]. rewrite IH.
  destruct o as [k0|]; [|by rewrite decide_False].
  destruct (decide (k0 = k)) as [->|Hne].
  - rewrite decide_True by done. rewrite decide_False by done.
    rewrite decide_True by by left. lia.
  - rewrite decide_False by congruence.
    destruct (decide (k0 ∈ l)) as [Hin|Hin].
    + rewrite decide_True by by right. lia.
    + rewrite decide_False; [lia|]. rewrite elem_of_cons. tauto.
Qed.

Lemma key_totals_sum (l : list string) (rows : list (option string * option Z)) :
  NoDup l → (∀ k, Some k ∈ rows.*1 → k ∈ l) →
  foldr Z.add 0 ((λ k, key_total k rows) <$> l) + unkeyed_total rows =
  exact_sum rows.*2.
Proof.
  intros Hnd. induction rows as [|[o x] rows IH]; intros Hall.
  - assert (foldr Z.add 0 ((λ k, key_total k []) <$> l) = 0) as ->; [|done].
    clear. induction l as [|k l IHl]; [done|].
    rewrite fmap_cons. cbn [foldr]. by rewrite IHl.
  - rewrite key_totals_cons, indicator_sum by done.
    assert (∀ k, Some k ∈ rows.*1 → k ∈ l) as Hall'.
    { intros k Hk. apply Hall. csimpl. by right. }
    specialize (IH Hall'). unfold unkeyed_total, exact_sum in *. csimpl.
    destruct o as [k0|]; simpl.
    + rewrite decide_True by (apply Hall; csimpl; by left). lia.
    + lia.
Qed.

Lemma group_totals_sum (keys : list (option string)) (vals : list (option Z)) :
  length keys = length vals → abs_total vals ≤ 2 ^ 53 →
  foldr Z.add 0 (groupby_sum keys vals).*2 + unkeyed_total (zip keys vals) =
  Series_sum vals.
Proof.
  intros Hlen Hb. rewrite Series_sum_exact by done.
  assert ((groupby_sum keys vals).*2 =
          (λ k, key_total k (zip keys vals)) <$> group_keys keys) as ->.
  { unfold groupby_sum, key_table. rewrite <- list_fmap_compose.
    apply Forall_fmap_ext, Forall_forall. intros k _. simpl.
    by apply group_sum_key_total. }
  rewrite <- (snd_zip keys vals) at 2 by lia.
  apply key_totals_sum; [apply group_keys_NoDup|].
  intros k Hk. rewrite fst_zip in Hk by lia. by apply group_keys_elem.
Qed.

(** X12. Within the exact range the group totals add up to the total of
    the column minus the units of the rows that have no key: when a key
    column has null cells, the grouped charts show less than the total. *)
Theorem X12_group_totals_add_up (keys : list (option string)) (vals : list (option Z)) :
  length keys = length vals → abs_total vals ≤ 2 ^ 53 →
  foldr Z.add 0 (groupby_sum keys vals).*2 + unkeyed_total (zip keys vals) =
  Series_sum vals.
Proof. apply group_totals_sum. Qed.
End sum_facts.

(** *** Rankings *)

Lemma insert_desc_perm (e : string * Z) (l : list (string * Z)) : insert_desc e l ≡ₚ e :: l.
Proof.
  induction l as [|e' l IH]; [done|]. simpl.
  destruct (e'.2 <? e.2); [done|]. rewrite IH. apply perm_swap.
Qed.

Lemma insert_desc_sorted (e : string * Z) (l : list (string * Z)) :
  StronglySorted total_ge l → StronglySorted total_ge (insert_desc e l).
Proof.
  induction 1 as [|e' l Hl IH He']; simpl; [repeat constructor|].
  destruct (Z.ltb_spec e'.2 e.2).
  - constructor; [by constructor|]. constructor; [unfold total_ge; lia|].
    eapply Forall_impl; [exact He'|]. unfold total_ge. intros; lia.
  - constructor; [done|]. rewrite insert_desc_perm. by constructor.
Qed.

Lemma ranking_snoc (l : list (string * Z)) (e : string * Z) :
  ranking (l ++ [e]) = insert_desc e (ranking l).
Proof. unfold ranking. by rewrite foldl_snoc. Qed.

Lemma ranking_perm (l : list (string * Z)) : ranking l ≡ₚ l.
Proof.
  induction l as [|e l IH] using rev_ind; [done|].
  rewrite ranking_snoc, insert_desc_perm, IH. by rewrite Permutation_cons_append.
Qed.

Lemma ranking_sorted (l : list (string * Z)) : StronglySorted total_ge (ranking l).
Proof.
  induction l as [|e l IH] using rev_ind; [constructor|].
  rewrite ranking_snoc. by apply insert_desc_sorted.
Qed.

Lemma insert_desc_head (e : string * Z) (l : list (string * Z)) :
  head (insert_desc e l) =
  match head l with
  | None => Some e
  | Some h => if h.2 <? e.2 then Some e else Some h
  end.
Proof. destruct l as [|h l]; [done|]. simpl. by destruct (h.2 <? e.2). Qed.

(** The first of a ranking is the earliest entry with the largest total. *)
Lemma ranking_head (l : list (string * Z)) (h : string * Z) :
  head (ranking l) = Some h →
  ∃ i, l !! i = Some h ∧
       (∀ j e, l !! j = Some e → e.2 ≤ h.2) ∧
       (∀ j e, (j < i)%nat → l !! j = Some e → e.2 < h.2).
Proof.
  revert h. induction l as [|e l IH] using rev_ind; intros h; [done|].
  rewrite ranking_snoc, insert_desc_head.
  destruct (head (ranking l)) as [h0|] eqn:Hh0.
  - destruct (IH h0 eq_refl) as (i & Hi & Hmax & Hfirst).
    pose proof (lookup_lt_Some _ _ _ Hi) as Hlt.
    destruct (Z.ltb_spec h0.2 e.2); intros [= <-].
    + exists (length l). split; [by rewrite list_lookup_middle|]. split.
      * intros j e' Hj. apply lookup_app_Some in Hj as [Hj|[_ Hj]].
        -- specialize (Hmax _ _ Hj). lia.
        -- destruct (j - length l)%nat; simplify_eq/=. lia.
      * intros j e' Hjl Hj. rewrite lookup_app_l in Hj by done.
        specialize (Hmax _ _ Hj). lia.
    + exists i. split; [by rewrite lookup_app_l|]. split.
      * intros j e' Hj. apply lookup_app_Some in Hj as [Hj|[_ Hj]]; [eauto|].
        destruct (j - length l)%nat; simplify_eq/=. lia.
      * intros j e' Hji Hj. rewrite lookup_app_l in Hj by lia. eauto.
  - intros [= <-]. unfold ranking in Hh0.
    destruct (foldl _ [] l) eqn:Hfold; [|done].
    apply ranking_nil in Hfold as [_ ->].
    exists 0%nat. split; [done|]. split.
    + intros [|j] e' Hj; simplify_eq/=. lia.
    + intros; lia.
Qed.

Lemma nlargest_head (n : nat) (s : list (string * Z)) :
  head (nlargest (S n) s) = head (ranking s).
Proof. unfold nlargest. fold (ranking s). by destruct (ranking s). Qed.

(** The first of the ranking of a table over the group keys. *)
Lemma key_table_best (f : string → Z) (keys : list (option string)) (top : string) :
  fst <$> head (nlargest 1 (key_table f keys)) = Some top →
  Some top ∈ keys ∧
  ∀ k, Some k ∈ keys → f k ≤ f top ∧ (f k = f top → k = top ∨ string_lt top k).
Proof.
  intros Htop. rewrite nlargest_head in Htop.
  destruct (head (ranking (key_table f keys))) as [[top' s]|] eqn:Hhead; [|done].
  simpl in Htop. injection Htop as ->.
  apply ranking_head in Hhead as (i & Hi & Hmax & Hfirst).
  assert (∀ j k, group_keys keys !! j = Some k → key_table f keys !! j = Some (k, f k))
    as Hentry by (intros j k Hj; unfold key_table; by rewrite list_lookup_fmap, Hj).
  assert (group_keys keys !! i = Some top ∧ s = f top) as [Hki ->].
  { unfold key_table in Hi. rewrite list_lookup_fmap in Hi.
    destruct (group_keys keys !! i) as [ki|]; simplify_eq/=. done. }
  split; [by eapply group_keys_elem, list_elem_of_lookup_2|].
  intros k Hk. apply group_keys_elem, list_elem_of_lookup_1 in Hk as [j Hj].
  pose proof (Hentry _ _ Hj) as Hj'.
  split; [apply (Hmax _ _ Hj')|]. intros Heq.
  destruct (decide (j < i)%nat) as [Hlt|Hge].
  { specialize (Hfirst _ _ Hlt Hj'). simpl in Hfirst. lia. }
  destruct (decide (j = i)) as [->|Hne]; [left; congruence|]. right.
  apply (StronglySorted_lookup_lt string_lt (group_keys keys) i j);
    [apply group_keys_sorted|lia|done..].
Qed.

Section best_key.
Context `{Sums}.

Lemma best_key_largest (keys : list (option string))
    (vals : list (option Z)) (top : string) :
  length keys = length vals → abs_total vals ≤ 2 ^ 53 →
  fst <$> head (nlargest 1 (groupby_sum keys vals)) = Some top →
  Some top ∈ keys ∧
  ∀ k, Some k ∈ keys →
       key_total k (zip keys vals) ≤ key_total top (zip keys vals) ∧
       (key_total k (zip keys vals) = key_total top (zip keys vals) →
        k = top ∨ string_lt top k).
Proof.
  intros Hlen Hb Htop. destruct (key_table_best _ _ _ Htop) as [Hin Hmax].
  split; [done|]. intros k Hk. specialize (Hmax k Hk). simpl in Hmax.
  by rewrite !group_sum_key_total in Hmax by done.
Qed.

(** X13. Within the exact range the product named as the week's best
    seller, and likewise the best region, is a key of the rows at hand whose
    total is the largest; among keys with the same total it is the first in
    string order. *)
Theorem X13_best_key_has_largest_total (keys : list (option string))
    (vals : list (option Z)) (top : string) :
  length keys = length vals → abs_total vals ≤ 2 ^ 53 →
  fst <$> head (nlargest 1 (groupby_sum keys vals)) = Some top →
  Some top ∈ keys ∧
  ∀ k, Some k ∈ keys →
       key_total k (zip keys vals) ≤ key_total top (zip keys vals) ∧
       (key_total k (zip keys vals) = key_total top (zip keys vals) →
        k = top ∨ string_lt top k).
Proof. apply best_key_largest. Qed.
End best_key.

Lemma nlargest_facts (n : nat) (s : list (string * Z)) :
  length (nlargest n s) = (n `min` length s)%nat ∧
  StronglySorted total_ge (nlargest n s) ∧
  nlargest n s ⊆+ s.
Proof.
  unfold nlargest. fold (ranking s).
  pose proof (ranking_sorted s) as Hsorted.
  rewrite <- (take_drop n (ranking s)) in Hsorted.
  split; [by rewrite length_take, (Permutation_length (ranking_perm s))|].
  split; [by eapply StronglySorted_app_1_l|].
  rewrite <- (ranking_perm s) at 2. apply submseteq_take.
Qed.

(** X14. A top-n list holds min(n, number of entries) entries in descending
    order of total; they are entries of the table, and no entry left out has
    a larger total than one that is shown. *)
Theorem X14_top_n_list (n : nat) (s : list (string * Z)) :
  let top := nlargest n s in
  length top = (n `min` length s)%nat ∧
  StronglySorted total_ge top ∧
  top ⊆+ s ∧
  ∃ rest, s ≡ₚ top ++ rest ∧ ∀ e e', e ∈ top → e' ∈ rest → e'.2 ≤ e.2.
Proof.
  intros top. unfold top, nlargest. fold (ranking s).
  pose proof (ranking_sorted s) as Hsorted.
  rewrite <- (take_drop n (ranking s)) in Hsorted.
  split; [by rewrite length_take, (Permutation_length (ranking_perm s))|].
  split; [by eapply StronglySorted_app_1_l|].
  split; [rewrite <- (ranking_perm s) at 2; apply submseteq_take|].
  exists (drop n (ranking s)). split.
  - by rewrite take_drop, ranking_perm.
  - intros e e' He He'. by eapply (StronglySorted_app_1_elem_of total_ge).
Qed.

(** ** The dashboard page (lines 110-133) *)

Lemma unkeyed_total_zero (rows : list (option string * option Z)) :
  Forall (λ r, r.1 ≠ None) rows → unkeyed_total rows = 0.
Proof.
  induction 1 as [|r rows Hr _ IH]; [done|]. simpl. by rewrite decide_False.
Qed.

Lemma submseteq_NoDup_fst (l k : list (string * Z)) :
  l ⊆+ k → NoDup k.*1 → NoDup l.*1.
Proof.
  intros [k' Hk]%submseteq_Permutation Hnd.
  rewrite Hk, fmap_app in Hnd. by apply NoDup_app in Hnd as [? _].
Qed.

Section dashboard_extras.
Context {G : Type} `{RandomGen G} `{DateParser} `{ArgSort} `{Sums}.

(** X15. The "Top 5" chart of the dashboard has min(5, number of distinct
    products) bars, one per product, in descending order of the bars'
    values.  As long as the absolute values of the units add up to at most
    2^53, each bar is the total of the units of that product's rows. *)
Theorem X15_dashboard_top_five (raw : RawFrame) (g : G) :
  raw_okb raw →
  let d := (persiapan_data raw g).1 in
  let top := dashboard_top_produk d in
  length top = (5 `min` size (list_to_set (omap id (Nama_Produk d)) : gset string))%nat ∧
  StronglySorted total_ge top ∧
  NoDup top.*1 ∧
  (∀ k, k ∈ top.*1 → Some k ∈ Nama_Produk d) ∧
  (abs_total (Penjualan d) ≤ 2 ^ 53 →
   ∀ k s, (k, s) ∈ top → s = key_total k (zip (Nama_Produk d) (Penjualan d))).
Proof.
  intros Hok d top.
  destruct (persiapan_frame_ok raw g Hok) as (_ & _ & _ & Hu & Hm). fold d in Hu, Hm.
  assert (length (Nama_Produk d) = length (Penjualan d)) as Hlen by congruence.
  destruct (nlargest_facts 5 (groupby_sum (Nama_Produk d) (Penjualan d)))
    as (Hlength & Hsorted & Hsub).
  destruct (group_table_keys (Nama_Produk d) (Penjualan d)) as (Hkeys & Hin & Hsize).
  split; [|split; [done|split; [|split]]].
  - unfold top, dashboard_top_produk. by rewrite Hlength, Hsize.
  - eapply submseteq_NoDup_fst; [exact Hsub|]. by apply string_sorted_NoDup.
  - intros k Hk. apply Hin. eapply elem_of_submseteq; [exact Hk|].
    by apply fmap_submseteq.
  - intros Hb k s Hks. apply (group_table_entries _ _ Hlen Hb).
    by eapply elem_of_submseteq; [exact Hks|].
Qed.

(** X16. When the region column was generated and the absolute values of
    the units add up to at most 2^53, the slices of the regional pie chart
    add up to the total of units sold: every row is in a slice. *)
Theorem X16_region_slices_add_up (raw : RawFrame) (g : G) :
  raw_okb raw → raw_Wilayah raw = None →
  let d := (persiapan_data raw g).1 in
  abs_total (Penjualan d) ≤ 2 ^ 53 →
  foldr Z.add 0 (wilayah_penjualan d).*2 = Series_sum (Penjualan d).
Proof.
  intros Hok Hnone d Hb.
  destruct (persiapan_frame_ok raw g Hok) as (_ & Hw & _ & Hu & _). fold d in Hu, Hw.
  assert (length (Wilayah d) = length (Penjualan d)) as Hlen by congruence.
  pose proof (group_totals_sum (Wilayah d) (Penjualan d) Hlen Hb) as Hsum.
  assert (unkeyed_total (zip (Wilayah d) (Penjualan d)) = 0) as Hzero; [|unfold wilayah_penjualan; lia].
  pose proof (generated_regions raw g Hnone) as Hall. fold d in Hall.
  assert (Forall (λ r : option string * option Z, r.1 ≠ None) (zip (Wilayah d) (Penjualan d)))
    as Hrows.
  { apply Forall_forall. intros [k x] Hin. apply elem_of_zip_l in Hin.
    rewrite Forall_forall in Hall. destruct (Hall _ Hin) as (w & -> & _). done. }
  by apply unkeyed_total_zero.
Qed.
End dashboard_extras.

Section insight_generated.
Context {G : Type} `{RandomGen G} `{DateParser} `{ArgSort} `{Arima} `{Sums}.

Lemma column_has_cell {A} (c : list A) (n : nat) :
  length c = n → (0 < n)%nat → ∃ x, x ∈ c.
Proof. destruct c as [|x c]; simpl; [lia|]. intros _ _. exists x. by left. Qed.

(** X17. When the product and the region columns were both generated, the
    weekly page never stops on an exception: on every non-empty table it
    names a best seller and a best region and reaches the footer. *)
Theorem X17_generated_keys_insight_completes (raw : RawFrame) (g : G) :
  raw_okb raw → raw_Nama_Produk raw = None → raw_Wilayah raw = None →
  let d := (persiapan_data raw g).1 in
  (0 < len d)%nat →
  ∃ top wilayah s,
    top_produk (recent_data d) = Some top ∧
    wilayah_terbaik (recent_data d) = Some wilayah ∧
    (script raw Insight_Otomatis g).1 = Completed s ∧
    st_success [lit "🔥 Dalam 7 hari terakhir, motor **"; label (Some top);
                lit "** paling laris!"] ∈ ui s.
Proof.
  intros Hok Hproduk Hwilayah d Hlen.
  pose proof (recent_data_not_empty raw g Hlen) as Hrecent. fold d in Hrecent.
  destruct (recent_data_ok d (persiapan_frame_ok raw g Hok)) as (_ & Hw & _ & Hu & Hm).
  assert (is_Some (top_produk (recent_data d))) as [top Htop].
  { apply ranking_first_is_Some.
    destruct (column_has_cell _ _ Hm Hrecent) as [x Hx].
    pose proof (iloc_elem_of _ _ _ Hx) as Hxd.
    unfold d in Hxd. rewrite persiapan_Nama_Produk_absent in Hxd by done.
    apply list_elem_of_fmap in Hxd as (i & -> & _). by exists (motor_label i). }
  assert (is_Some (wilayah_terbaik (recent_data d))) as [wil Hwil].
  { apply ranking_first_is_Some.
    destruct (column_has_cell _ _ Hw Hrecent) as [x Hx].
    pose proof (iloc_elem_of _ _ _ Hx) as Hxd.
    pose proof (generated_regions raw g Hwilayah) as Hall. rewrite Forall_forall in Hall.
    destruct (Hall _ Hxd) as (w & -> & _). by exists w. }
  exists top, wil.
  assert ((0 <? len (recent_data d))%nat = true) as Hif by by apply Nat.ltb_lt.
  rewrite script_outcome. cbv zeta. unfold insight_otomatis.
  cbn [data show]. fold d. rewrite Hif, Htop, Hwil.
  eexists. split; [done|]. split; [done|]. split; [done|].
  unfold show. cbn [data ui]. rewrite !elem_of_app, !elem_of_cons. auto.
Qed.
End insight_generated.

(** ** The product analysis page (lines 138-154) *)

Lemma occurrences_zero (w : string) (c : list (option string)) :
  Some w ∉ c → occurrences w c = 0%nat.
Proof.
  unfold occurrences. induction c as [|x c IH]; [done|].
  rewrite not_elem_of_cons, filter_cons. intros [Hne Hc].
  rewrite decide_False by done. auto.
Qed.

Section analisis_extras.
Context {G : Type} `{RandomGen G} `{DateParser} `{ArgSort} `{Sums} `{Float64}.

(** X18. As long as the absolute values of the units add up to at most
    2^53, the total shown for a product on the analysis page is the sum of
    the units of its rows, and it is the total the dashboard's group table
    holds for that product. *)
Theorem X18_product_total_matches_groups (raw : RawFrame) (g : G) (p : string)
    (v : AnalisisView) :
  raw_okb raw →
  let d := (persiapan_data raw g).1 in
  abs_total (Penjualan d) ≤ 2 ^ 53 →
  Some p ∈ Nama_Produk d →
  analisis_produk d (Some p) = Ok v →
  total_metric v = key_total p (zip (Nama_Produk d) (Penjualan d)) ∧
  (p, total_metric v) ∈ groupby_sum (Nama_Produk d) (Penjualan d).
Proof.
  intros Hok d Hb Hp Hv.
  destruct (persiapan_frame_ok raw g Hok) as (_ & _ & _ & Hu & Hm). fold d in Hu, Hm.
  assert (length (Nama_Produk d) = length (Penjualan d)) as Hlen by congruence.
  assert (total_metric v = key_total p (zip (Nama_Produk d) (Penjualan d))) as Htotal.
  { unfold analisis_produk in Hv.
    destruct (Wilayah_mode _); [|done]. injection Hv as <-. simpl.
    by apply Series_sum_key_total. }
  split; [done|]. rewrite Htotal.
  by apply (group_table_entries _ _ Hlen Hb).
Qed.
End analisis_extras.

Section analisis_region.
Context `{Sums} `{Float64}.

(** X19. The region shown on the analysis page is the most frequent region
    among the product's rows.  When none of these rows has a region, and so
    whenever the pick selects no product, the page stops on a [KeyError]. *)
Theorem X19_most_frequent_region (d : Frame) (produk : option string) :
  let regions := Wilayah (select_produk d produk) in
  (analisis_produk d produk = Raise "KeyError: 0" ↔ ∀ w, Some w ∉ regions) ∧
  analisis_produk d None = Raise "KeyError: 0" ∧
  ∀ v, analisis_produk d produk = Ok v →
       Some (wilayah_metric v) ∈ regions ∧
       ∀ w, (occurrences w regions ≤ occurrences (wilayah_metric v) regions)%nat.
Proof.
  intros regions.
  assert (∀ c, Wilayah_mode c = None ↔ ∀ w, Some w ∉ c) as Hnone.
  { intros c. rewrite eq_None_not_Some. unfold Wilayah_mode.
    rewrite ranking_first_is_Some. split.
    - intros Hno w Hw. apply Hno. by exists w.
    - intros Hno [w Hw]. by apply (Hno w). }
  split; [|split].
  - unfold analisis_produk. fold regions.
    destruct (Wilayah_mode regions) as [w|] eqn:Hmode.
    + split; [done|]. intros Hno. apply Hnone in Hno. congruence.
    + split; [|done]. intros _. by apply Hnone.
  - unfold analisis_produk, select_produk. simpl. rewrite eq_mask_None.
    by vm_compute.
  - intros v Hv. unfold analisis_produk in Hv. fold regions in Hv.
    destruct (Wilayah_mode regions) as [w|] eqn:Hmode; [|done].
    injection Hv as <-. simpl.
    destruct (key_table_best _ regions w Hmode) as [Hin Hmax].
    split; [done|]. intros w'.
    destruct (decide (Some w' ∈ regions)) as [Hw'|Hw'].
    + destruct (Hmax w' Hw') as [Hle _]. lia.
    + assert (occurrences w' regions = 0%nat) as ->; [|lia].
      by apply occurrences_zero.
Qed.
End analisis_region.

(** ** The promotion page (lines 197-215) *)

Lemma fraction_mean_of_nothing (c : list (option Z)) :
  omap id c = [] → fraction_isnan (Penjualan_mean c) = true.
Proof. unfold Penjualan_mean. by intros ->. Qed.

Lemma fraction_gt_nan (a b : option (Z * nat)) :
  fraction_isnan a = true ∨ fraction_isnan b = true → fraction_gt a b = false.
Proof. destruct a as [[? ?]|], b as [[? ?]|]; simpl; intuition discriminate. Qed.

Definition fractions : Float64 :=
  {| float := option (Z * nat);
     Series_mean := Penjualan_mean;
     float_gt := fraction_gt;
     isnan := fraction_isnan;
     mean_of_nothing := fraction_mean_of_nothing;
     gt_nan := fraction_gt_nan |}.

Lemma flag_mask_none (c : list (option Z)) (v : Z) :
  Some v ∉ c → mask_positions (flag_mask c v) = [].
Proof.
  unfold mask_positions. generalize 0%nat.
  induction c as [|x c IH]; intros k; [done|].
  rewrite not_elem_of_cons. intros [Hne Hc]. simpl.
  rewrite bool_decide_eq_false_2 by done. auto.
Qed.

(** X20. When no row was sold under promotion, or none without, one of the
    two averages is the mean of an empty series, NaN, and the page gives the
    "needs evaluation" verdict, never "promotion is effective". *)
Theorem X20_nothing_to_compare `{Float64} (d : Frame) :
  Some 1 ∉ Promosi d ∨ Some 0 ∉ Promosi d →
  verdict (rekomendasi_promosi d) = perlu_evaluasi.
Proof.
  intros Hno. unfold rekomendasi_promosi. simpl.
  rewrite gt_nan; [done|].
  destruct Hno as [Hno|Hno]; [left|right];
    rewrite (flag_mask_none _ _ Hno); by apply mean_of_nothing.
Qed.

(** ** Loading the table (lines 21-68) *)








(** X23. What a run has loaded through a cached function, later runs get
    without reading: with the same upload, or again without upload and local
    files, the next run reads nothing and shows the same messages and the
    same table, whatever the sources have become in the meantime. *)
Theorem X23_cached_table_is_reused (c : Cache) (w w' : World) (df : RawFrame) :
  through_cache w → through_cache w' →
  uploaded_file w' = uploaded_file w →
  result (load c w).1 = Loaded df →
  let c' := (load c w).2 in
  (load c' w').1 = {| reads := []; notices := notices (load c w).1; result := Loaded df |} ∧
  (load c' w').2 = c'.
Proof.
  intros Hw Hw' Hup Hdf. cbv zeta.
  assert (∀ entry store body,
            result (cache_data entry store c body).1 = Loaded df →
            ∃ kept, kept = (df, notices (cache_data entry store c body).1) ∧
                    ((entry = Some kept ∧ (cache_data entry store c body).2 = c) ∨
                     (entry = None ∧ (cache_data entry store c body).2 = store kept)))
    as Hcached.
  { intros entry store body. unfold cache_data.
    destruct entry as [[df0 shown]|]; simpl.
    - intros [= ->]. eexists. split; [done|]. by left.
    - destruct (result body) as [df0| |] eqn:Hres; simpl; rewrite ?Hres; try done.
      intros [= ->]. eexists. split; [done|]. by right. }
  unfold load, through_cache in *. rewrite Hup in Hw' |- *. clear Hup.
  destruct (uploaded_file w) as [file|].
  - unfold load_data in *.
    destruct (Hcached _ _ _ Hdf) as (kept & -> & [[Hc ->]|[Hc ->]]).
    + unfold cache_data at 1 3. by rewrite Hc.
    + unfold cache_data at 1 3. simpl. by rewrite decide_True.
  - destruct Hw as [[? [=]]|[Hcsv Hxlsx]]. destruct Hw' as [[? [=]]|[Hcsv' Hxlsx']].
    rewrite Hcsv, Hxlsx in Hdf |- *. rewrite Hcsv', Hxlsx'.
    unfold load_default_data in *.
    destruct (Hcached _ _ _ Hdf) as (kept & -> & [[Hc ->]|[Hc ->]]).
    + unfold cache_data at 1 3. by rewrite Hc.
    + unfold cache_data at 1 3. by simpl.
Qed.

(** * The further properties on concrete tables *)

Example endswith_examples :
  endswith "penjualan.csv" ".csv" = true ∧ endswith "penjualan.CSV" ".csv" = false ∧
  endswith "csv" ".csv" = false ∧ endswith "a.csv.xlsx" ".csv" = false ∧
  endswith "a.csv.xlsx" ".xlsx" = true.
Proof. by vm_compute. Qed.

Lemma X1_witness :
  raw_okb raw_sales ∧
  let d := (persiapan_data (G:=N) raw_sales 0%N).1 in
  length (Tanggal d) = len d ∧ length (Wilayah d) = len d ∧
  length (Promosi d) = len d ∧ length (Penjualan d) = len d ∧
  length (Nama_Produk d) = len d.
Proof.
  split; [vm_compute; exact I|].
  apply (X1_prepared_table_rectangular raw_sales 0%N). vm_compute; exact I.
Defined.

Lemma X3_witness :
  let d := (persiapan_data (G:=N) raw_sales 0%N).1 in
  index d !! 0%nat = Some 7%nat ∧
  Tanggal d !! 0%nat = tanggal_parsed raw_sales !! 7%nat ∧
  ∃ t, tanggal_parsed raw_sales !! 7%nat = Some (Some t).
Proof.
  cbv zeta. split; [vm_compute; reflexivity|].
  apply (X3_row_keeps_its_date raw_sales 0%N 0 7). vm_compute; reflexivity.
Defined.

Lemma X4_witness :
  raw_Wilayah raw_dates_only = None ∧
  Forall (λ x, ∃ w : string, x = Some w ∧ w ∈ wilayah_list)
         (Wilayah (persiapan_data (G:=N) raw_dates_only 42%N).1).
Proof.
  split; [reflexivity|].
  apply (X4_generated_regions raw_dates_only 42%N). reflexivity.
Defined.

Lemma X5_witness :
  raw_Promosi raw_dates_only = None ∧
  Forall (λ x, x = Some 0 ∨ x = Some 1)
         (Promosi (persiapan_data (G:=N) raw_dates_only 42%N).1).
Proof.
  split; [reflexivity|].
  apply (X5_generated_promo_flags raw_dates_only 42%N). reflexivity.
Defined.

Lemma X6_witness :
  is_Some (raw_Wilayah raw_three_columns) ∧ is_Some (raw_Promosi raw_three_columns) ∧
  is_Some (raw_Penjualan raw_three_columns) ∧
  (persiapan_data (G:=N) raw_three_columns 5%N).2 = 5%N ∧
  (persiapan_data (G:=N) raw_three_columns 5%N).1 =
  (persiapan_data (G:=N) raw_three_columns 42%N).1.
Proof.
  assert (is_Some (raw_Wilayah raw_three_columns)) as Hw by (vm_compute; eauto).
  assert (is_Some (raw_Promosi raw_three_columns)) as Hp by (vm_compute; eauto).
  assert (is_Some (raw_Penjualan raw_three_columns)) as Hu by (vm_compute; eauto).
  repeat (split; [assumption|]).
  exact (X6_random_only_for_three_columns raw_three_columns 5%N 42%N Hw Hp Hu).
Defined.

Lemma X8_witness :
  let d := (persiapan_data (G:=N) raw_no_label 0%N).1 in
  let options := unique (Nama_Produk d) in
  selectbox options 0 = None ∧
  len (select_produk d None) = 0%nat ∧
  ∃ e, (script (G:=N) raw_no_label (Prediksi_Demand 0) 0%N).1 =
       Completed {| data := d;
                    ui := persiapan_ui raw_no_label ++ prediksi_header options
                          ++ [st_error [lit "Model gagal dijalankan: "; lit e]]
                          ++ footer_ui |}.
Proof.
  cbv zeta. split; [vm_compute; reflexivity|].
  apply (@X8_no_product_no_forecast N lcg iso_dates numpy_sort naive int64_sums
           raw_no_label 0%N 0).
  vm_compute; reflexivity.
Defined.

Lemma X9_witness :
  let d := (persiapan_data (G:=N) raw_undated 0%N).1 in
  len d = 0%nat ∧
  (script (G:=N) raw_undated Insight_Otomatis 0%N).1 =
    Completed {| data := d;
                 ui := persiapan_ui raw_undated
                       ++ [st_title "🤖 Insight Otomatis Mingguan"; no_recent_sales]
                       ++ footer_ui |}.
Proof.
  cbv zeta. split; [vm_compute; reflexivity|].
  apply (@X9_empty_table_shows_warning N lcg iso_dates numpy_sort naive int64_sums
           raw_undated 0%N).
  vm_compute; reflexivity.
Defined.

Lemma X10_witness :
  let d := (persiapan_data (G:=N) raw_sales 0%N).1 in
  Tanggal_max (Tanggal d) = Some (timestamp_ymd 2024 3 5) ∧
  index (recent_data d) `sublist_of` index d ∧
  (∀ t, Some t ∈ Tanggal (recent_data d) →
        timestamp_ymd 2024 3 5 - timedelta_days 7 ≤ t ≤ timestamp_ymd 2024 3 5) ∧
  (∀ i a t, index d !! i = Some a → Tanggal d !! i = Some (Some t) →
            (a ∈ index (recent_data d) ↔ timestamp_ymd 2024 3 5 - timedelta_days 7 ≤ t)).
Proof.
  cbv zeta. split; [vm_compute; reflexivity|].
  apply (@X10_recent_rows_are_the_last_week N lcg iso_dates numpy_sort
           raw_sales 0%N (timestamp_ymd 2024 3 5)).
  vm_compute; reflexivity.
Defined.

Lemma X11_witness :
  length keys_tied = length vals_tied ∧
  let groups := groupby_sum keys_tied vals_tied in
  StronglySorted string_lt groups.*1 ∧
  (∀ k, k ∈ groups.*1 ↔ Some k ∈ keys_tied) ∧
  length groups = size (list_to_set (omap id keys_tied) : gset string) ∧
  (abs_total vals_tied ≤ 2 ^ 53 →
   ∀ k s, (k, s) ∈ groups ↔ Some k ∈ keys_tied ∧ s = key_total k (zip keys_tied vals_tied)).
Proof.
  split; [reflexivity|].
  apply (@X11_group_table int64_sums keys_tied vals_tied). reflexivity.
Defined.

Lemma X12_witness :
  length keys_tied = length vals_tied ∧ abs_total vals_tied ≤ 2 ^ 53 ∧
  foldr Z.add 0 (groupby_sum keys_tied vals_tied).*2 + unkeyed_total (zip keys_tied vals_tied) =
  Series_sum vals_tied.
Proof.
  split; [reflexivity|]. split; [by vm_compute|].
  apply (@X12_group_totals_add_up int64_sums keys_tied vals_tied);
    [reflexivity | by vm_compute].
Defined.

Lemma X13_witness :
  length keys_tied = length vals_tied ∧ abs_total vals_tied ≤ 2 ^ 53 ∧
  fst <$> head (nlargest 1 (groupby_sum keys_tied vals_tied)) = Some "Beat"%string ∧
  Some "Beat"%string ∈ keys_tied ∧
  ∀ k, Some k ∈ keys_tied →
       key_total k (zip keys_tied vals_tied) ≤ key_total "Beat" (zip keys_tied vals_tied) ∧
       (key_total k (zip keys_tied vals_tied) = key_total "Beat" (zip keys_tied vals_tied) →
        k = "Beat"%string ∨ string_lt "Beat" k).
Proof.
  split; [reflexivity|]. split; [by vm_compute|]. split; [vm_compute; reflexivity|].
  apply (@X13_best_key_has_largest_total int64_sums keys_tied vals_tied "Beat");
    [reflexivity | by vm_compute | vm_compute; reflexivity].
Defined.

Lemma X15_witness :
  raw_okb raw_units_only ∧
  let d := (persiapan_data (G:=N) raw_units_only 7%N).1 in
  let top := dashboard_top_produk d in
  length top = (5 `min` size (list_to_set (omap id (Nama_Produk d)) : gset string))%nat ∧
  StronglySorted total_ge top ∧
  NoDup top.*1 ∧
  (∀ k, k ∈ top.*1 → Some k ∈ Nama_Produk d) ∧
  (abs_total (Penjualan d) ≤ 2 ^ 53 →
   ∀ k s, (k, s) ∈ top → s = key_total k (zip (Nama_Produk d) (Penjualan d))).
Proof.
  split; [vm_compute; exact I|].
  apply (@X15_dashboard_top_five N lcg iso_dates numpy_sort int64_sums raw_units_only 7%N).
  vm_compute; exact I.
Defined.

Lemma X16_witness :
  raw_okb raw_dates_only ∧ raw_Wilayah raw_dates_only = None ∧
  let d := (persiapan_data (G:=N) raw_dates_only 42%N).1 in
  abs_total (Penjualan d) ≤ 2 ^ 53 ∧
  foldr Z.add 0 (wilayah_penjualan d).*2 = Series_sum (Penjualan d).
Proof.
  split; [vm_compute; exact I|]. split; [reflexivity|]. cbv zeta.
  split; [by vm_compute|].
  apply (@X16_region_slices_add_up N lcg iso_dates numpy_sort int64_sums
           raw_dates_only 42%N); [vm_compute; exact I | reflexivity | by vm_compute].
Defined.

Lemma X17_witness :
  raw_okb raw_dates_only ∧ raw_Nama_Produk raw_dates_only = None ∧
  raw_Wilayah raw_dates_only = None ∧
  let d := (persiapan_data (G:=N) raw_dates_only 42%N).1 in
  (0 < len d)%nat ∧
  ∃ top wilayah s,
    top_produk (recent_data d) = Some top ∧
    wilayah_terbaik (recent_data d) = Some wilayah ∧
    (script (G:=N) raw_dates_only Insight_Otomatis 42%N).1 = Completed s ∧
    st_success [lit "🔥 Dalam 7 hari terakhir, motor **"; label (Some top);
                lit "** paling laris!"] ∈ ui s.
Proof.
  split; [vm_compute; exact I|]. split; [reflexivity|]. split; [reflexivity|].
  cbv zeta. split; [vm_compute; lia|].
  apply (@X17_generated_keys_insight_completes N lcg iso_dates numpy_sort naive
           int64_sums raw_dates_only 42%N); [vm_compute; exact I|reflexivity|reflexivity|vm_compute; lia].
Defined.

Lemma X18_witness :
  raw_okb raw_sales ∧
  let d := (persiapan_data (G:=N) raw_sales 0%N).1 in
  let v := {| total_metric := 225;
              rata_rata_metric := (Some (225, 5%nat) : @float fractions);
              wilayah_metric := "Jakarta";
              tabel := select_produk d (Some "Beat"%string) |} in
  abs_total (Penjualan d) ≤ 2 ^ 53 ∧
  Some "Beat"%string ∈ Nama_Produk d ∧
  analisis_produk d (Some "Beat"%string) = Ok v ∧
  total_metric v = key_total "Beat" (zip (Nama_Produk d) (Penjualan d)) ∧
  ("Beat"%string, total_metric v) ∈ groupby_sum (Nama_Produk d) (Penjualan d).
Proof.
  split; [vm_compute; exact I|]. cbv zeta.
  assert (Some "Beat"%string ∈ Nama_Produk (persiapan_data (G:=N) raw_sales 0%N).1) as Hin.
  { apply (list_elem_of_lookup_2 _ 1). vm_compute; reflexivity. }
  split; [by vm_compute|]. split; [exact Hin|]. split; [vm_compute; reflexivity|].
  apply (@X18_product_total_matches_groups N lcg iso_dates numpy_sort int64_sums
           fractions raw_sales 0%N "Beat");
    [vm_compute; exact I | by vm_compute | exact Hin | vm_compute; reflexivity].
Defined.

(** Offline, a first run stops; after a run online it shows the table. *)
Example offline_after_online :
  result (load empty_cache world_offline).1 = Stopped ∧
  result (load (load empty_cache world_online).2 world_offline).1 = Loaded raw_sales.
Proof. by vm_compute. Qed.

Lemma X23_witness :
  through_cache world_online ∧ through_cache world_offline ∧
  uploaded_file world_offline = uploaded_file world_online ∧
  result (load empty_cache world_online).1 = Loaded raw_sales ∧
  let c' := (load empty_cache world_online).2 in
  (load c' world_offline).1 =
    {| reads := []; notices := notices (load empty_cache world_online).1;
       result := Loaded raw_sales |} ∧
  (load c' world_offline).2 = c'.
Proof.
  assert (∀ w, path_exists w = (λ _, false) → through_cache w) as Hthrough.
  { intros w Hw. right. by rewrite Hw. }
  split; [by apply Hthrough|]. split; [by apply Hthrough|].
  split; [reflexivity|]. split; [reflexivity|].
  apply (X23_cached_table_is_reused empty_cache world_online world_offline raw_sales);
    [by apply Hthrough | by apply Hthrough | reflexivity | reflexivity].
Defined.

Lemma X20_witness :
  let d := (persiapan_data (G:=N) raw_one_day 0%N).1 in
  (Some 1 ∉ Promosi d ∨ Some 0 ∉ Promosi d) ∧
  verdict (rekomendasi_promosi (H:=fractions) d) = perlu_evaluasi.
Proof.
  cbv zeta.
  assert (Some 1 ∉ Promosi (persiapan_data (G:=N) raw_one_day 0%N).1) as Hno.
  { apply (bool_decide_unpack _). vm_compute. exact I. }
  split; [by left|].
  apply (@X20_nothing_to_compare fractions). by left.
Defined.
